(** * ChatBot: conversation state of the command-line chat client

    A shallow embedding of [chatbot.py] (class [ChatBot]) and of the
    read-eval loop of [cli.py], followed by the properties of the rolling
    history window, of the profile parser and of the system prompt.

    Conventions.
    - A Python [str] is a sequence of Unicode code points: [list N].
      Literals are written as UTF-8 text and decoded by [utf8].
    - A Python [int] is a [Z]; list slices [l[i:]] and [l[:j]] follow
      Python's rules for negative and out-of-range bounds.
    - A method that mutates [self] is a function from the state before the
      call to the state after it (paired with the result when it has one).
    - The completion endpoint is outside the program: each call of
      [get_response] receives the behaviour of
      [self.client.chat.completions.create] for that call as an argument:
      it returns an answer, raises an [Exception], or is interrupted by
      the user while the request is pending ([KeyboardInterrupt], which
      [except Exception] does not catch). *)

From Stdlib Require Import Strings.String Strings.Ascii.
From Stdlib Require Import List ZArith NArith Bool Lia.
Import ListNotations.

Set Implicit Arguments.

(* ================================================================== *)
(** ** Python strings *)
(* ================================================================== *)

Module PyStr.

Definition str := list N.

Fixpoint bytes_of (s : string) : list N :=
  match s with
  | EmptyString => []
  | String a r => N_of_ascii a :: bytes_of r
  end.

(** The six low bits of a UTF-8 continuation byte. *)
Definition cont (b : N) : N := N.land b 0x3F.

(** UTF-8 decoding of a well-formed byte sequence (a lone or truncated
    lead byte is kept as it is). *)
Fixpoint utf8_decode (bs : list N) : str :=
  match bs with
  | [] => []
  | b1 :: r1 =>
    if (b1 <? 0x80)%N then b1 :: utf8_decode r1
    else
      match r1 with
      | [] => [b1]
      | b2 :: r2 =>
        if (b1 <? 0xE0)%N then
          (N.shiftl (N.land b1 0x1F) 6 + cont b2)%N :: utf8_decode r2
        else
          match r2 with
          | [] => [b1; b2]
          | b3 :: r3 =>
            if (b1 <? 0xF0)%N then
              (N.shiftl (N.land b1 0x0F) 12 + N.shiftl (cont b2) 6
               + cont b3)%N :: utf8_decode r3
            else
              match r3 with
              | [] => [b1; b2; b3]
              | b4 :: r4 =>
                (N.shiftl (N.land b1 0x07) 18 + N.shiftl (cont b2) 12
                 + N.shiftl (cont b3) 6 + cont b4)%N :: utf8_decode r4
              end
          end
      end
  end.

Definition utf8 (s : string) : str := utf8_decode (bytes_of s).

(** [str.isspace] on one code point: the white-space table of CPython
    ([_PyUnicode_IsWhitespace]). *)
Definition isspace (c : N) : bool :=
  ((0x09 <=? c) && (c <=? 0x0D)
   || (0x1C <=? c) && (c <=? 0x20)
   || (c =? 0x85) || (c =? 0xA0) || (c =? 0x1680)
   || (0x2000 <=? c) && (c <=? 0x200A)
   || (c =? 0x2028) || (c =? 0x2029) || (c =? 0x202F)
   || (c =? 0x205F) || (c =? 0x3000))%N.

Fixpoint lstrip (s : str) : str :=
  match s with
  | [] => []
  | c :: r => if isspace c then lstrip r else s
  end.

Definition rstrip (s : str) : str := rev (lstrip (rev s)).

(** [s.strip()] *)
Definition strip (s : str) : str := rstrip (lstrip s).

(** [s.split(sep)] for a one-character separator: never an empty list. *)
Fixpoint split (sep : N) (s : str) : list str :=
  match s with
  | [] => [[]]
  | c :: r =>
    if (c =? sep)%N then [] :: split sep r
    else
      match split sep r with
      | [] => [[c]]
      | piece :: pieces => (c :: piece) :: pieces
      end
  end.

(** [sep.join(items)] *)
Fixpoint join (sep : str) (items : list str) : str :=
  match items with
  | [] => []
  | x :: rest =>
    match rest with
    | [] => x
    | _ :: _ => x ++ sep ++ join sep rest
    end
  end.

(** Truth value of a sequence: non-empty. *)
Definition truthy {A : Type} (l : list A) : bool :=
  match l with [] => false | _ :: _ => true end.

Fixpoint eqb (s t : str) : bool :=
  match s, t with
  | [], [] => true
  | c :: s', d :: t' => (c =? d)%N && eqb s' t'
  | _, _ => false
  end.

(** [s.lower()] on the ASCII letters. Code points outside [A-Z] are left
    as they are: no code point other than [Q], [U], [I], [T] has one of
    [q], [u], [i], [t] as its lower case, so the only use of [lower] in
    the program, the test [user_text.lower() in ["q", "quit"]], is not
    affected. *)
Definition lower_char (c : N) : N :=
  if ((0x41 <=? c) && (c <=? 0x5A))%N then (c + 0x20)%N else c.

Definition lower (s : str) : str := map lower_char s.

(** [s in l] for a list of strings. *)
Definition mem (s : str) (l : list str) : bool := existsb (eqb s) l.

(** [needle in s] as a proposition: [needle] occurs verbatim in [s]. *)
Definition occurs_in (needle s : str) : Prop :=
  exists before after, s = before ++ needle ++ after.

Definition starts_with_space (s : str) : bool :=
  match s with [] => false | c :: _ => isspace c end.

Definition ends_with_space (s : str) : bool := starts_with_space (rev s).

(** [trimmed] is [piece] without its leading and trailing white space:
    what is cut off on either side is white space, and what is left
    neither starts nor ends with white space. *)
Definition is_trim_of (piece trimmed : str) : Prop :=
  exists before after,
    piece = before ++ trimmed ++ after
    /\ forallb isspace before = true
    /\ forallb isspace after = true
    /\ starts_with_space trimmed = false
    /\ ends_with_space trimmed = false.

End PyStr.

(* ================================================================== *)
(** ** Python list slices *)
(* ================================================================== *)

Module PySlice.

(** [l[start:]] *)
Definition slice_from {A : Type} (start : Z) (l : list A) : list A :=
  let len := Z.of_nat (length l) in
  let i := if (start <? 0)%Z then Z.max 0 (start + len) else Z.min start len in
  skipn (Z.to_nat i) l.

(** [l[:stop]] *)
Definition slice_to {A : Type} (stop : Z) (l : list A) : list A :=
  let len := Z.of_nat (length l) in
  let j := if (stop <? 0)%Z then Z.max 0 (stop + len) else Z.min stop len in
  firstn (Z.to_nat j) l.

(** The last [n] entries of [l] (all of [l] when it has fewer). *)
Definition lastn {A : Type} (n : nat) (l : list A) : list A :=
  skipn (length l - n) l.

End PySlice.

(* ================================================================== *)
(** ** chatbot.py *)
(* ================================================================== *)

Module Chatbot.
Import PyStr PySlice.

Definition DEFAULT_MAX_EXCHANGES : Z := 7.

(** A message of the dialogue: the dict [{"role": ..., "content": ...}]. *)
Record message : Type := { role : str; content : str }.

Definition user_message (text : str) : message :=
  {| role := utf8 "user"; content := text |}.
Definition assistant_message (text : str) : message :=
  {| role := utf8 "assistant"; content := text |}.
Definition system_message_of (text : str) : message :=
  {| role := utf8 "system"; content := text |}.

(** [self.user_profile]: a dict that is either empty or holds the keys
    ["name"] and ["context_items"]; a key that is absent is [None]. *)
Record profile_dict : Type :=
  { key_name : option str; key_context_items : option (list str) }.

Definition empty_dict : profile_dict :=
  {| key_name := None; key_context_items := None |}.

(** Truth value of the dict: it has at least one key. *)
Definition dict_truthy (d : profile_dict) : bool :=
  match key_name d, key_context_items d with
  | None, None => false
  | _, _ => true
  end.

(** [d.get(key, default)] *)
Definition get {A : Type} (entry : option A) (default : A) : A :=
  match entry with Some v => v | None => default end.

Record ChatBot : Type :=
  { model : str;
    max_exchanges : Z;
    user_profile : profile_dict;
    history : list message }.

Definition with_history (self : ChatBot) (h : list message) : ChatBot :=
  {| model := model self; max_exchanges := max_exchanges self;
     user_profile := user_profile self; history := h |}.

Definition with_user_profile (self : ChatBot) (p : profile_dict) : ChatBot :=
  {| model := model self; max_exchanges := max_exchanges self;
     user_profile := p; history := history self |}.

(** [ChatBot(model, max_exchanges)] *)
Definition __init__ (model : str) (max_exchanges : Z) : ChatBot :=
  {| model := model; max_exchanges := max_exchanges;
     user_profile := empty_dict; history := [] |}.

Definition default_model : str := utf8 "llama3:8b".

Definition comma : N := 0x2C.

(** The list comprehension of [set_user_profile]. *)
Definition parse_context_items (context_info_str : str) : list str :=
  map strip (filter (fun item => truthy (strip item))
                    (split comma context_info_str)).

Definition set_user_profile (name context_info_str : str) (self : ChatBot)
  : ChatBot :=
  let context_items := parse_context_items context_info_str in
  with_user_profile self
    {| key_name := Some name; key_context_items := Some context_items |}.

Definition GENERIC_PROMPT : str := utf8 "Ты — полезный ассистент.".
Definition NAME_DEFAULT : str := utf8 "не указано".
Definition CONTEXT_PLACEHOLDER : str := utf8 "не указана".
Definition COMMA_SPACE : str := utf8 ", ".
Definition PROMPT_HEAD : str :=
  utf8 "Ты — ассистент. Веди диалог, строго учитывая следующие данные о пользователе. Имя: ".
Definition PROMPT_MIDDLE : str :=
  utf8 ". " ++ utf8 "Ключевая информация о нем (интересы, факты): ".
Definition PROMPT_TAIL : str :=
  utf8 ". " ++ utf8 "Всегда обращайся к пользователю по имени. Адаптируй ответы под его интересы, если это уместно.".

Definition context_str_of (context_items : list str) : str :=
  if truthy context_items then join COMMA_SPACE context_items
  else CONTEXT_PLACEHOLDER.

Definition _create_system_prompt (self : ChatBot) : message :=
  if negb (dict_truthy (user_profile self)) then
    system_message_of GENERIC_PROMPT
  else
    let name := get (key_name (user_profile self)) NAME_DEFAULT in
    let context_items := get (key_context_items (user_profile self)) [] in
    let context_str := context_str_of context_items in
    let prompt :=
      PROMPT_HEAD ++ name ++ PROMPT_MIDDLE ++ context_str ++ PROMPT_TAIL in
    system_message_of prompt.

(** What one call of the completion endpoint does: the text of
    [response.choices[0].message.content]; an exception [e] of class
    [Exception], of which the program uses [str(e)]; or a
    [KeyboardInterrupt] raised while the request is pending, which is not
    an [Exception]. *)
Inductive completion : Type :=
| Completed (answer : str)
| Failed (str_e : str)
| Interrupted.

(** [self.client.chat.completions.create(model=..., messages=...)]
    followed by the selection of the answer. *)
Definition Client : Type := str -> list message -> completion.

(** How [get_response] ends: it returns the answer, raises
    [ConnectionError(error_msg)], or lets the [KeyboardInterrupt] of the
    request through. *)
Inductive outcome : Type :=
| Returned (answer : str)
| ConnectionError (error_msg : str)
| KeyboardInterrupt.

(** The first two statements of [get_response]: append the user message,
    then keep [self.history[-self.max_exchanges * 2:]]. *)
Definition append_user_and_truncate (user_input : str) (self : ChatBot)
  : ChatBot :=
  let appended := history self ++ [user_message user_input] in
  with_history self (slice_from (- max_exchanges self * 2) appended).

(** [messages_to_send] of [get_response]. *)
Definition messages_to_send (user_input : str) (self : ChatBot)
  : list message :=
  let self1 := append_user_and_truncate user_input self in
  let system_message := _create_system_prompt self1 in
  [system_message] ++ history self1.

Definition error_msg_of (str_e model : str) : str :=
  utf8 "Ошибка при обращении к модели: " ++ str_e ++ [0x0A%N]
  ++ utf8 "Убедитесь, что Ollama запущен (docker start ollama) "
  ++ utf8 "и модель " ++ model ++ utf8 " загружена.".

Definition get_response (create : Client) (user_input : str)
           (self : ChatBot) : ChatBot * outcome :=
  let self1 := append_user_and_truncate user_input self in
  let system_message := _create_system_prompt self1 in
  let messages_to_send := [system_message] ++ history self1 in
  match create (model self1) messages_to_send with
  | Completed answer =>
    (with_history self1 (history self1 ++ [assistant_message answer]),
     Returned answer)
  | Failed str_e =>
    let self2 := with_history self1 (slice_to (-1) (history self1)) in
    (self2, ConnectionError (error_msg_of str_e (model self2)))
  | Interrupted => (self1, KeyboardInterrupt)
  end.

Definition clear_history (self : ChatBot) : ChatBot :=
  with_history self [].

(** A run of calls of [get_response] that all return: the state after
    the last one, or [None] as soon as one call raises. *)
Fixpoint successful_exchanges (calls : list (Client * str))
         (self : ChatBot) : option ChatBot :=
  match calls with
  | [] => Some self
  | (create, user_input) :: rest =>
    match get_response create user_input self with
    | (self', Returned _) => successful_exchanges rest self'
    | (_, ConnectionError _) => None
    | (_, KeyboardInterrupt) => None
    end
  end.

(** The operations on a bot, and a session as a sequence of them. *)
Inductive operation : Type :=
| Set_user_profile (name context_info_str : str)
| Get_response (create : Client) (user_input : str)
| Clear_history.

Definition apply_operation (op : operation) (self : ChatBot) : ChatBot :=
  match op with
  | Set_user_profile name context_info_str =>
    set_user_profile name context_info_str self
  | Get_response create user_input =>
    fst (get_response create user_input self)
  | Clear_history => clear_history self
  end.

Definition session (ops : list operation) (self : ChatBot) : ChatBot :=
  fold_left (fun s op => apply_operation op s) ops self.

Definition is_set_user_profile (op : operation) : bool :=
  match op with Set_user_profile _ _ => true | _ => false end.

(** Both keys of the profile dict are present. *)
Definition profile_is (name : str) (context_items : list str)
  : profile_dict :=
  {| key_name := Some name; key_context_items := Some context_items |}.

End Chatbot.

(* ================================================================== *)
(** ** cli.py: the read-eval loop *)
(* ================================================================== *)

Module Cli.
Import PyStr Chatbot.

(** What [run_chat_loop] prints. *)
Inductive printed : Type :=
| History_listing (messages : list message)
| Bot_reply (response : str)
| Error_report (e : str)
| Session_end.

(** [show_history(bot)]: reads [bot.history] and prints it. *)
Definition show_history (bot : ChatBot) : list printed :=
  [History_listing (history bot)].

(** How one iteration of the [while True] loop ends: the loop goes on
    with the bot and the output of the iteration, the iteration reaches
    [break], or a [KeyboardInterrupt] leaves [bot.get_response] and with
    it the loop. *)
Inductive iteration : Type :=
| Continue (bot : ChatBot) (out : list printed)
| Break
| Interrupt (bot : ChatBot).

(** One iteration of the loop on the line [user_text]. *)
Definition loop_iteration (create : Client) (user_text : str)
           (bot : ChatBot) : iteration :=
  if mem (lower user_text) [utf8 "q"; utf8 "quit"] then Break
  else if eqb (strip user_text) (utf8 "/history") then
    Continue bot (show_history bot)
  else if negb (truthy (strip user_text)) then Continue bot []
  else
    match get_response create user_text bot with
    | (bot', Returned response) => Continue bot' [Bot_reply response]
    | (bot', ConnectionError e) => Continue bot' [Error_report e]
    | (bot', KeyboardInterrupt) => Interrupt bot'
    end.

(** [run_chat_loop(bot)] on the lines that [input] returns, each with
    the behaviour of the endpoint should the line be sent. The end of the
    list is the end of input or an interrupt at the prompt; there, and
    when a request is interrupted, the handler of
    [(KeyboardInterrupt, EOFError)] prints the end of the session. After
    [break] nothing is printed. *)
Fixpoint run_chat_loop (lines : list (Client * str)) (bot : ChatBot)
  : ChatBot * list printed :=
  match lines with
  | [] => (bot, [Session_end])
  | (create, user_text) :: rest =>
    match loop_iteration create user_text bot with
    | Break => (bot, [])
    | Interrupt bot' => (bot', [Session_end])
    | Continue bot' out =>
      let '(bot'', out') := run_chat_loop rest bot' in
      (bot'', out ++ out')
    end
  end.

End Cli.

(* ================================================================== *)
(** ** Sample sessions *)
(* ================================================================== *)

Module Samples.
Import PyStr PySlice Chatbot.

(** An endpoint that answers [answer] whatever it is sent. *)
Definition answering (answer : str) : Client :=
  fun _ _ => Completed answer.

(** An endpoint that is unreachable. *)
Definition unreachable : Client :=
  fun _ _ => Failed (utf8 "Connection error.").

(** A request during which the user presses Ctrl-C. *)
Definition interrupting : Client := fun _ _ => Interrupted.

Definition u1 : message := user_message (utf8 "one").
Definition a1 : message := assistant_message (utf8 "first").
Definition u2 : message := user_message (utf8 "two").
Definition a2 : message := assistant_message (utf8 "second").

(** A bot that keeps one exchange, after two successful exchanges. *)
Definition bot_window_1 : ChatBot := __init__ default_model 1.

Definition two_exchanges : list (Client * str) :=
  [(answering (utf8 "first"), utf8 "one");
   (answering (utf8 "second"), utf8 "two")].

Definition bot_after_two : ChatBot :=
  with_history bot_window_1 [a1; u2; a2].

Definition bot_default : ChatBot :=
  __init__ default_model DEFAULT_MAX_EXCHANGES.

(** The default bot after the same two exchanges: the window of seven
    exchanges is not full. *)
Definition bot_default_after_two : ChatBot :=
  with_history bot_default [u1; a1; u2; a2].

Definition bot_window_0 : ChatBot := __init__ default_model 0.

Definition bot_window_neg : ChatBot := __init__ default_model (-1).

Definition blank : str := utf8 "   ".

(** The default bot with the profile of Ana. *)
Definition bot_ana : ChatBot :=
  set_user_profile (utf8 "Ana") (utf8 "chess, hiking,  reading ")
                   bot_default.

End Samples.

(* ================================================================== *)
(** ** Observing a session *)
(* ================================================================== *)

Module Session.
Import PyStr PySlice Chatbot.

(** The message lists handed to the endpoint during a session, in the
    order of the calls of [get_response]. *)
Fixpoint requests_of (ops : list operation) (self : ChatBot)
  : list (list message) :=
  match ops with
  | [] => []
  | op :: rest =>
    match op with
    | Get_response _ user_input => [messages_to_send user_input self]
    | _ => []
    end ++ requests_of rest (apply_operation op self)
  end.

(** What an operation adds to the transcript of the dialogue: a call of
    [get_response] that returns adds the user turn and the answer, a call
    that raises [ConnectionError] adds nothing, a call that is
    interrupted adds the user turn, [clear_history] starts the transcript
    afresh. *)
Definition record_operation (op : operation) (self : ChatBot)
           (transcript : list message) : list message :=
  match op with
  | Set_user_profile _ _ => transcript
  | Clear_history => []
  | Get_response create user_input =>
    match snd (get_response create user_input self) with
    | Returned answer =>
      transcript ++ [user_message user_input; assistant_message answer]
    | ConnectionError _ => transcript
    | KeyboardInterrupt => transcript ++ [user_message user_input]
    end
  end.

(** No call of [get_response] of the session is interrupted. *)
Fixpoint uninterrupted (ops : list operation) (self : ChatBot) : bool :=
  match ops with
  | [] => true
  | op :: rest =>
    match op with
    | Get_response create user_input =>
      match snd (get_response create user_input self) with
      | KeyboardInterrupt => false
      | _ => true
      end
    | _ => true
    end && uninterrupted rest (apply_operation op self)
  end.

Fixpoint transcript_of (ops : list operation) (self : ChatBot)
         (transcript : list message) : list message :=
  match ops with
  | [] => transcript
  | op :: rest =>
    transcript_of rest (apply_operation op self)
                  (record_operation op self transcript)
  end.

(** The roles of the turns, read from the newest to the oldest, alternate,
    the newest being a user's when [expect_user] and an assistant's
    otherwise. *)
Fixpoint alternates_back (expect_user : bool) (newest_first : list message)
  : bool :=
  match newest_first with
  | [] => true
  | turn :: earlier =>
    eqb (role turn) (if expect_user then utf8 "user" else utf8 "assistant")
    && alternates_back (negb expect_user) earlier
  end.

(** The calls of a run as operations of a session. *)
Definition calls_as_operations (calls : list (Client * str))
  : list operation :=
  map (fun call => Get_response (fst call) (snd call)) calls.

(** A character of a context string that cannot be part of an item. *)
Definition is_filler (c : N) : bool := isspace c || (c =? comma)%N.

End Session.

(* ================================================================== *)
(** ** cli.py: profile set-up, history display and main *)
(* ================================================================== *)

Module Display.
Import PyStr Chatbot Cli.

Definition ESC : N := 0x1B.
Definition COLORS_USER : str := ESC :: utf8 "[94m".
Definition COLORS_BOT : str := ESC :: utf8 "[92m".
Definition COLORS_INFO : str := ESC :: utf8 "[37m".
Definition COLORS_ERROR : str := ESC :: utf8 "[91m".
Definition COLORS_END : str := ESC :: utf8 "[0m".

Definition NEWLINE : str := [0x0A%N].

(** ["─" * 50] *)
Definition separator : str := repeat 0x2500%N 50.

(** The line that [show_history] prints for one message of the history:
    none for a role other than ["user"] and ["assistant"]. *)
Definition history_line (message : message) : list str :=
  let role := role message in
  let content := content message in
  if eqb role (utf8 "user") then
    [COLORS_USER ++ utf8 "Вы:" ++ COLORS_END ++ utf8 " " ++ content
     ++ NEWLINE]
  else if eqb role (utf8 "assistant") then
    [COLORS_BOT ++ utf8 "Бот:" ++ COLORS_END ++ utf8 " " ++ content
     ++ NEWLINE]
  else [].

(** [show_history(bot)], as the arguments of its calls of [print]. *)
Definition show_history_prints (bot : ChatBot) : list str :=
  if negb (truthy (history bot)) then
    [COLORS_INFO ++ utf8 "История диалога пуста." ++ COLORS_END ++ NEWLINE]
  else
    [NEWLINE ++ COLORS_INFO ++ separator;
     utf8 "История диалога:";
     separator ++ COLORS_END ++ NEWLINE]
    ++ flat_map history_line (history bot)
    ++ [COLORS_INFO ++ separator ++ COLORS_END ++ NEWLINE].

(** [setup_profile(bot)] on the two lines that [input] returns: they are
    passed to [set_user_profile] as they are. What it prints around them
    is fixed text. *)
Definition setup_profile (name context_str : str) (bot : ChatBot)
  : ChatBot :=
  set_user_profile name context_str bot.

(** The lines of the loop that reach [get_response], as operations: the
    loop stops at a quit command, skips [/history] and blank lines,
    forwards every other line as it was typed, and stops after a line
    whose request is interrupted. *)
Fixpoint forwarded_lines (lines : list (Client * str)) (bot : ChatBot)
  : list operation :=
  match lines with
  | [] => []
  | (create, user_text) :: rest =>
    if mem (lower user_text) [utf8 "q"; utf8 "quit"] then []
    else if eqb (strip user_text) (utf8 "/history") then
      forwarded_lines rest bot
    else if negb (truthy (strip user_text)) then forwarded_lines rest bot
    else
      Get_response create user_text
      :: match get_response create user_text bot with
         | (_, KeyboardInterrupt) => []
         | (bot', _) => forwarded_lines rest bot'
         end
  end.

(** [main()] on the name, the context and the lines typed by the user:
    the bot at the end of the loop and what the loop printed. The banner
    printed before the loop is fixed text. *)
Definition main (name context_str : str) (lines : list (Client * str))
  : ChatBot * list printed :=
  let bot := __init__ default_model DEFAULT_MAX_EXCHANGES in
  let bot := setup_profile name context_str bot in
  run_chat_loop lines bot.

End Display.

(* ================================================================== *)
(** ** Slices *)
(* ================================================================== *)

Import PyStr PySlice Chatbot Cli Samples Session Display.

Section SliceFacts.
Context {A : Type}.
Implicit Types (l : list A) (x : A) (n : nat).

Lemma slice_from_zero l : slice_from 0 l = l.
Proof.
  unfold slice_from. simpl.
  replace (Z.min 0 (Z.of_nat (length l))) with 0%Z by lia.
  reflexivity.
Qed.

Lemma slice_from_negative (k : Z) l :
  (0 < k)%Z -> slice_from (- k) l = lastn (Z.to_nat k) l.
Proof.
  intros Hk. unfold slice_from, lastn.
  destruct (Z.ltb_spec (- k) 0) as [_ | Hge]; [| lia].
  f_equal. lia.
Qed.

Lemma slice_from_positive (k : Z) l :
  (0 <= k)%Z -> slice_from k l = skipn (Z.to_nat k) l.
Proof.
  intros Hk. unfold slice_from.
  destruct (Z.ltb_spec k 0) as [Hlt | _]; [lia |].
  destruct (Z.le_gt_cases k (Z.of_nat (length l))) as [Hle | Hgt].
  - f_equal. lia.
  - rewrite !skipn_all2 by lia. reflexivity.
Qed.

Lemma slice_to_minus_one l : slice_to (-1) l = removelast l.
Proof.
  unfold slice_to. rewrite removelast_firstn_len.
  change (-1 <? 0)%Z with true. cbv iota.
  f_equal. rewrite <- Nat.sub_1_r. lia.
Qed.

Lemma lastn_all n l : length l <= n -> lastn n l = l.
Proof.
  intros Hle. unfold lastn.
  replace (length l - n) with 0 by lia. reflexivity.
Qed.

Lemma length_lastn n l : length (lastn n l) = Nat.min n (length l).
Proof. unfold lastn. rewrite length_skipn. lia. Qed.

Lemma lastn_snoc n l x : lastn (S n) (l ++ [x]) = lastn n l ++ [x].
Proof.
  unfold lastn. rewrite length_app, skipn_app. simpl length.
  replace (length l + 1 - S n) with (length l - n) by lia.
  replace (length l - n - length l) with 0 by lia.
  reflexivity.
Qed.

Lemma removelast_lastn_snoc n l x :
  removelast (lastn (S n) (l ++ [x])) = lastn n l.
Proof. rewrite lastn_snoc. apply removelast_last. Qed.

End SliceFacts.

(* ================================================================== *)
(** ** get_response: the history after the call *)
(* ================================================================== *)

Section ResponseFacts.
Variables (create : Client) (user_input : str) (self : ChatBot).

(** With a window of at least one exchange, the truncation keeps the
    user message and the [2 * max_exchanges - 1] entries before it. *)
Lemma history_after_user_turn :
  (1 <= max_exchanges self)%Z ->
  history (append_user_and_truncate user_input self)
  = lastn (Z.to_nat (2 * max_exchanges self - 1)) (history self)
    ++ [user_message user_input].
Proof.
  intros Hm. unfold append_user_and_truncate.
  cbn [with_history history].
  replace (- max_exchanges self * 2)%Z
    with (- (2 * max_exchanges self))%Z by lia.
  rewrite slice_from_negative by lia.
  replace (Z.to_nat (2 * max_exchanges self))
    with (S (Z.to_nat (2 * max_exchanges self - 1))) by lia.
  apply lastn_snoc.
Qed.

(** With [max_exchanges = 0] the slice is [history[0:]]: nothing is
    dropped. *)
Lemma history_after_user_turn_zero :
  max_exchanges self = 0%Z ->
  history (append_user_and_truncate user_input self)
  = history self ++ [user_message user_input].
Proof.
  intros Hm. unfold append_user_and_truncate.
  cbn [with_history history].
  rewrite Hm. apply slice_from_zero.
Qed.

(** With a negative [max_exchanges] the bound of the slice is positive:
    the first [- 2 * max_exchanges] entries are dropped instead. *)
Lemma history_after_user_turn_negative :
  (max_exchanges self < 0)%Z ->
  history (append_user_and_truncate user_input self)
  = skipn (Z.to_nat (- 2 * max_exchanges self))
          (history self ++ [user_message user_input]).
Proof.
  intros Hm. unfold append_user_and_truncate.
  cbn [with_history history].
  rewrite slice_from_positive by lia.
  f_equal. lia.
Qed.

Lemma get_response_completed (answer : str) :
  create (model self) (messages_to_send user_input self) = Completed answer ->
  get_response create user_input self
  = (with_history self
       (history (append_user_and_truncate user_input self)
        ++ [assistant_message answer]),
     Returned answer).
Proof.
  intros Hc. unfold get_response.
  change (create (model self) (messages_to_send user_input self))
    with (create (model (append_user_and_truncate user_input self))
                 ([_create_system_prompt
                     (append_user_and_truncate user_input self)]
                  ++ history (append_user_and_truncate user_input self)))
    in Hc.
  rewrite Hc. reflexivity.
Qed.

Lemma get_response_failed (str_e : str) :
  create (model self) (messages_to_send user_input self) = Failed str_e ->
  get_response create user_input self
  = (with_history self
       (removelast (history (append_user_and_truncate user_input self))),
     ConnectionError (error_msg_of str_e (model self))).
Proof.
  intros Hc. unfold get_response.
  change (create (model self) (messages_to_send user_input self))
    with (create (model (append_user_and_truncate user_input self))
                 ([_create_system_prompt
                     (append_user_and_truncate user_input self)]
                  ++ history (append_user_and_truncate user_input self)))
    in Hc.
  rewrite Hc, slice_to_minus_one. reflexivity.
Qed.

Lemma get_response_interrupted :
  create (model self) (messages_to_send user_input self) = Interrupted ->
  get_response create user_input self
  = (append_user_and_truncate user_input self, KeyboardInterrupt).
Proof.
  intros Hc. unfold get_response.
  change (create (model self) (messages_to_send user_input self))
    with (create (model (append_user_and_truncate user_input self))
                 ([_create_system_prompt
                     (append_user_and_truncate user_input self)]
                  ++ history (append_user_and_truncate user_input self)))
    in Hc.
  rewrite Hc. reflexivity.
Qed.

Lemma user_profile_get_response :
  user_profile (fst (get_response create user_input self))
  = user_profile self.
Proof.
  unfold get_response.
  destruct (create _ _); reflexivity.
Qed.

Lemma max_exchanges_get_response :
  max_exchanges (fst (get_response create user_input self))
  = max_exchanges self.
Proof.
  unfold get_response.
  destruct (create _ _); reflexivity.
Qed.

End ResponseFacts.

(* ================================================================== *)
(** ** The rolling window and failed requests *)
(* ================================================================== *)

(** C1, as stated, fails: a bot that keeps one exchange has history
    [a1; u2; a2] after two exchanges; a third request that fails leaves
    [a2] only, because the truncation that precedes the request has
    already dropped [a1] and [u2]. *)
Lemma failed_request_after_full_window_loses_turns :
  successful_exchanges two_exchanges bot_window_1 = Some bot_after_two
  /\ history bot_after_two = [a1; u2; a2]
  /\ unreachable (model bot_after_two)
       (messages_to_send (utf8 "three") bot_after_two)
     = Failed (utf8 "Connection error.")
  /\ history (fst (get_response unreachable (utf8 "three") bot_after_two))
     = [a2]
  /\ history (fst (get_response unreachable (utf8 "three") bot_after_two))
     <> history bot_after_two.
Proof.
  repeat split; try reflexivity.
  vm_compute. discriminate.
Qed.

(** C1 (amended): when the completion fails, [get_response] raises
    [ConnectionError] and the history is the last
    [2 * max_exchanges - 1] entries of the history before the call; it is
    exactly that history when it had fewer than [2 * max_exchanges]
    entries. Model, window size and profile are untouched. *)
Theorem failed_response_keeps_recent_history :
  forall (create : Client) (user_input : str) (self : ChatBot) (str_e : str),
    (1 <= max_exchanges self)%Z ->
    create (model self) (messages_to_send user_input self) = Failed str_e ->
    let self' := fst (get_response create user_input self) in
    snd (get_response create user_input self)
    = ConnectionError (error_msg_of str_e (model self))
    /\ history self'
       = lastn (Z.to_nat (2 * max_exchanges self - 1)) (history self)
    /\ ((Z.of_nat (length (history self)) < 2 * max_exchanges self)%Z ->
        history self' = history self)
    /\ model self' = model self
    /\ max_exchanges self' = max_exchanges self
    /\ user_profile self' = user_profile self.
Proof.
  intros create user_input self str_e Hm Hfail self'. subst self'.
  rewrite (get_response_failed _ _ _ Hfail).
  cbn [fst snd with_history history model max_exchanges user_profile].
  rewrite history_after_user_turn by assumption.
  rewrite removelast_last.
  repeat split.
  intros Hshort. apply lastn_all. lia.
Qed.

Lemma failed_response_keeps_recent_history_witness :
  ((1 <= max_exchanges bot_after_two)%Z
   /\ unreachable (model bot_after_two)
        (messages_to_send (utf8 "three") bot_after_two)
      = Failed (utf8 "Connection error.")
   /\ history bot_after_two = [a1; u2; a2]
   /\ history (fst (get_response unreachable (utf8 "three") bot_after_two))
      = [a2])
  /\ ((1 <= max_exchanges bot_default_after_two)%Z
      /\ (Z.of_nat (length (history bot_default_after_two))
          < 2 * max_exchanges bot_default_after_two)%Z
      /\ history (fst (get_response unreachable (utf8 "three")
                                    bot_default_after_two))
         = [u1; a1; u2; a2]).
Proof.
  split.
  - split; [vm_compute; discriminate |].
    split; [reflexivity |]. split; [reflexivity |].
    destruct (@failed_response_keeps_recent_history
                unreachable (utf8 "three") bot_after_two
                (utf8 "Connection error."))
      as (_ & Hkept & _); [vm_compute; discriminate | reflexivity |].
    rewrite Hkept. vm_compute. reflexivity.
  - split; [vm_compute; discriminate |].
    split; [vm_compute; reflexivity |].
    destruct (@failed_response_keeps_recent_history
                unreachable (utf8 "three") bot_default_after_two
                (utf8 "Connection error."))
      as (_ & _ & Hsame & _); [vm_compute; discriminate | reflexivity |].
    rewrite Hsame; [reflexivity | vm_compute; reflexivity].
Defined.

(** C3, as stated, fails once the window is full: from the history
    [a1; u2; a2] of a bot that keeps one exchange, a successful call
    leaves three entries again (not five) and a failed call leaves one
    (not three). A call can also end in a third way: interrupted, it
    leaves two entries here. *)
Lemma full_window_transition_sizes :
  successful_exchanges two_exchanges bot_window_1 = Some bot_after_two
  /\ length (history bot_after_two) = 3
  /\ get_response (answering (utf8 "third")) (utf8 "three") bot_after_two
     = (with_history bot_after_two
          [a2; user_message (utf8 "three");
           assistant_message (utf8 "third")],
        Returned (utf8 "third"))
  /\ length (history (fst (get_response (answering (utf8 "third"))
                                        (utf8 "three") bot_after_two)))
     <> length (history bot_after_two) + 2
  /\ snd (get_response unreachable (utf8 "three") bot_after_two)
     = ConnectionError
         (error_msg_of (utf8 "Connection error.") default_model)
  /\ length (history (fst (get_response unreachable (utf8 "three")
                                        bot_after_two)))
     <> length (history bot_after_two)
  /\ get_response interrupting (utf8 "three") bot_after_two
     = (with_history bot_after_two [a2; user_message (utf8 "three")],
        KeyboardInterrupt).
Proof.
  repeat split; try reflexivity; vm_compute; discriminate.
Qed.

(** C3 (amended): with [max_exchanges >= 1] and a history of [k] entries,
    a call ends in one of three ways. It returns, and then the history
    has [min (k + 1) (2 * max_exchanges) + 1] entries; or it raises
    [ConnectionError], and then it has [min k (2 * max_exchanges - 1)]
    entries; or a [KeyboardInterrupt] leaves it while the request is
    pending, and then the user turn is kept and the history has
    [min (k + 1) (2 * max_exchanges)] entries. While
    [k < 2 * max_exchanges] this is [k + 2] after a success, the
    unchanged history after a failure, and the history with the user turn
    after an interrupt. *)
Theorem response_transition_sizes :
  forall (create : Client) (user_input : str) (self : ChatBot),
    (1 <= max_exchanges self)%Z ->
    let k := Z.of_nat (length (history self)) in
    let after := get_response create user_input self in
    let k' := Z.of_nat (length (history (fst after))) in
    match create (model self) (messages_to_send user_input self) with
    | Completed answer =>
      snd after = Returned answer
      /\ k' = (Z.min (k + 1) (2 * max_exchanges self) + 1)%Z
      /\ ((k < 2 * max_exchanges self)%Z -> k' = (k + 2)%Z)
    | Failed str_e =>
      snd after = ConnectionError (error_msg_of str_e (model self))
      /\ k' = Z.min k (2 * max_exchanges self - 1)
      /\ ((k < 2 * max_exchanges self)%Z ->
          history (fst after) = history self)
    | Interrupted =>
      snd after = KeyboardInterrupt
      /\ k' = Z.min (k + 1) (2 * max_exchanges self)
      /\ ((k < 2 * max_exchanges self)%Z ->
          history (fst after) = history self ++ [user_message user_input])
    end.
Proof.
  intros create user_input self Hm k after k'.
  destruct (create (model self) (messages_to_send user_input self))
    as [answer | str_e |] eqn:Hc; subst k' after.
  - rewrite (get_response_completed _ _ _ Hc).
    cbn [fst snd with_history history].
    rewrite history_after_user_turn by assumption.
    rewrite !length_app, length_lastn. simpl length.
    repeat split; subst k; lia.
  - rewrite (get_response_failed _ _ _ Hc).
    cbn [fst snd with_history history].
    rewrite history_after_user_turn by assumption.
    rewrite removelast_last, length_lastn.
    repeat split; [subst k; lia |].
    intros Hshort. apply lastn_all. subst k. lia.
  - rewrite (get_response_interrupted _ _ _ Hc).
    cbn [fst snd].
    rewrite history_after_user_turn by assumption.
    rewrite length_app, length_lastn. simpl length.
    repeat split; [subst k; lia |].
    intros Hshort. f_equal. apply lastn_all. subst k. lia.
Qed.

Lemma response_transition_sizes_witness :
  (1 <= max_exchanges bot_after_two)%Z
  /\ (1 <= max_exchanges bot_default_after_two)%Z
  /\ length (history bot_after_two) = 3
  /\ length (history bot_default_after_two) = 4
  /\ (snd (get_response (answering (utf8 "third")) (utf8 "three")
                        bot_after_two)
      = Returned (utf8 "third")
      /\ Z.of_nat (length (history (fst (get_response
                                           (answering (utf8 "third"))
                                           (utf8 "three") bot_after_two))))
         = 3%Z)
  /\ (snd (get_response unreachable (utf8 "three") bot_after_two)
      = ConnectionError
          (error_msg_of (utf8 "Connection error.") default_model)
      /\ Z.of_nat (length (history (fst (get_response
                                           unreachable (utf8 "three")
                                           bot_after_two))))
         = 1%Z)
  /\ (snd (get_response interrupting (utf8 "three") bot_after_two)
      = KeyboardInterrupt
      /\ Z.of_nat (length (history (fst (get_response
                                           interrupting (utf8 "three")
                                           bot_after_two))))
         = 2%Z)
  /\ Z.of_nat (length (history (fst (get_response
                                       (answering (utf8 "third"))
                                       (utf8 "three")
                                       bot_default_after_two))))
     = 6%Z
  /\ history (fst (get_response unreachable (utf8 "three")
                                bot_default_after_two))
     = [u1; a1; u2; a2]
  /\ history (fst (get_response interrupting (utf8 "three")
                                bot_default_after_two))
     = [u1; a1; u2; a2; user_message (utf8 "three")].
Proof.
  assert (H1 : (1 <= max_exchanges bot_after_two)%Z)
    by (vm_compute; discriminate).
  assert (H7 : (1 <= max_exchanges bot_default_after_two)%Z)
    by (vm_compute; discriminate).
  assert (Hshort : (Z.of_nat (length (history bot_default_after_two))
                    < 2 * max_exchanges bot_default_after_two)%Z)
    by (vm_compute; reflexivity).
  pose proof (@response_transition_sizes
                (answering (utf8 "third")) (utf8 "three") bot_after_two H1) as Hs1.
  pose proof (@response_transition_sizes
                unreachable (utf8 "three") bot_after_two H1) as Hf1.
  pose proof (@response_transition_sizes
                interrupting (utf8 "three") bot_after_two H1) as Hi1.
  pose proof (@response_transition_sizes
                (answering (utf8 "third")) (utf8 "three") bot_default_after_two H7) as Hs7.
  pose proof (@response_transition_sizes
                unreachable (utf8 "three") bot_default_after_two H7) as Hf7.
  pose proof (@response_transition_sizes
                interrupting (utf8 "three") bot_default_after_two H7) as Hi7.
  cbv beta zeta iota delta [answering unreachable interrupting]
    in Hs1, Hf1, Hi1, Hs7, Hf7, Hi7.
  destruct Hs1 as (Hs1r & Hs1l & _). destruct Hf1 as (Hf1r & Hf1l & _).
  destruct Hi1 as (Hi1r & Hi1l & _). destruct Hs7 as (_ & _ & Hs7l).
  destruct Hf7 as (_ & _ & Hf7h). destruct Hi7 as (_ & _ & Hi7h).
  split; [exact H1 |]. split; [exact H7 |].
  split; [reflexivity |]. split; [reflexivity |].
  split; [split; [exact Hs1r |];
          etransitivity; [exact Hs1l | vm_compute; reflexivity] |].
  split; [split; [exact Hf1r |];
          etransitivity; [exact Hf1l | vm_compute; reflexivity] |].
  split; [split; [exact Hi1r |];
          etransitivity; [exact Hi1l | vm_compute; reflexivity] |].
  split; [etransitivity; [exact (Hs7l Hshort) | vm_compute; reflexivity] |].
  split; [etransitivity; [exact (Hf7h Hshort) | reflexivity] |].
  etransitivity; [exact (Hi7h Hshort) | reflexivity].
Defined.

(* ================================================================== *)
(** ** Length of the window in a run of successful exchanges *)
(* ================================================================== *)

(** A successful call from a history of [k] entries leaves
    [min (k + 1) (2 * max_exchanges) + 1] entries. *)
Lemma length_after_returned :
  forall (create : Client) (user_input : str) (self self' : ChatBot)
         (answer : str),
    (1 <= max_exchanges self)%Z ->
    get_response create user_input self = (self', Returned answer) ->
    max_exchanges self' = max_exchanges self
    /\ Z.of_nat (length (history self'))
       = (Z.min (Z.of_nat (length (history self)) + 1)
                (2 * max_exchanges self) + 1)%Z.
Proof.
  intros create user_input self self' answer Hm Hget.
  destruct (create (model self) (messages_to_send user_input self))
    as [answer' | str_e |] eqn:Hc.
  - rewrite (get_response_completed _ _ _ Hc) in Hget.
    apply (f_equal fst) in Hget. cbn [fst] in Hget. subst self'.
    split; [reflexivity |].
    cbn [with_history history].
    rewrite history_after_user_turn by assumption.
    rewrite !length_app, length_lastn. simpl length. lia.
  - rewrite (get_response_failed _ _ _ Hc) in Hget. discriminate.
  - rewrite (get_response_interrupted _ _ _ Hc) in Hget. discriminate.
Qed.

(** After [j] exchanges the history has [min (2 * j) (2 * m + 1)]
    entries; the property is carried along any further successful run. *)
Lemma length_after_successful_exchanges :
  forall (calls : list (Client * str)) (self self' : ChatBot) (j : Z),
    (1 <= max_exchanges self)%Z ->
    Z.of_nat (length (history self))
    = Z.min (2 * j) (2 * max_exchanges self + 1) ->
    successful_exchanges calls self = Some self' ->
    max_exchanges self' = max_exchanges self
    /\ Z.of_nat (length (history self'))
       = Z.min (2 * (j + Z.of_nat (length calls)))
               (2 * max_exchanges self + 1).
Proof.
  induction calls as [| [create user_input] rest IH];
    intros self self' j Hm Hlen Hrun.
  - injection Hrun as <-. split; [reflexivity |].
    simpl length. rewrite Hlen. f_equal. lia.
  - simpl in Hrun.
    destruct (get_response create user_input self)
      as [self1 [answer | e |]] eqn:Hget; [| discriminate | discriminate].
    destruct (length_after_returned _ _ _ Hm Hget) as [Hm1 Hlen1].
    destruct (IH self1 self' (j + 1)%Z) as [Hm' Hlen']; try assumption.
    + rewrite Hm1. assumption.
    + rewrite Hm1, Hlen1, Hlen. lia.
    + split; [congruence |].
      rewrite Hlen', Hm1. simpl length. f_equal. lia.
Qed.

(** C4, as stated, fails: in the first exchange of a bot with the default
    window of seven exchanges the history holds one entry after the
    truncation, which is neither [2 * min(1, 7)] nor [2 * min(0, 7)]. *)
Lemma first_user_turn_window_length :
  max_exchanges bot_default = 7%Z
  /\ successful_exchanges [] bot_default = Some bot_default
  /\ length (history (append_user_and_truncate (utf8 "hello") bot_default))
     = 1
  /\ length (history (append_user_and_truncate (utf8 "hello") bot_default))
     <> 2 * Nat.min 1 7
  /\ length (history (append_user_and_truncate (utf8 "hello") bot_default))
     <> 2 * Nat.min 0 7.
Proof.
  repeat split; try reflexivity; vm_compute; discriminate.
Qed.

(** C4 (amended): with [max_exchanges >= 1], after [n] successful
    exchanges from an empty history, the history right after the
    truncation of the next user turn (exchange number [n + 1]) has
    [min (2 * n + 1) (2 * max_exchanges)] entries. *)
Theorem window_length_after_truncation :
  forall (calls : list (Client * str)) (start self : ChatBot)
         (user_input : str),
    (1 <= max_exchanges start)%Z ->
    history start = [] ->
    successful_exchanges calls start = Some self ->
    Z.of_nat (length (history (append_user_and_truncate user_input self)))
    = Z.min (2 * Z.of_nat (length calls) + 1) (2 * max_exchanges start).
Proof.
  intros calls start self user_input Hm Hempty Hrun.
  assert (Hzero : Z.of_nat (length (history start))
                  = Z.min (2 * 0) (2 * max_exchanges start + 1))
    by (rewrite Hempty; simpl length; lia).
  destruct (@length_after_successful_exchanges
              calls start self 0%Z Hm Hzero Hrun)
    as [Hm' Hlen].
  rewrite history_after_user_turn by (rewrite Hm'; assumption).
  rewrite length_app, length_lastn. simpl length.
  rewrite Hm'. lia.
Qed.

Lemma window_length_after_truncation_witness :
  (1 <= max_exchanges bot_window_1)%Z
  /\ history bot_window_1 = []
  /\ successful_exchanges two_exchanges bot_window_1 = Some bot_after_two
  /\ Z.of_nat (length (history (append_user_and_truncate
                                  (utf8 "three") bot_after_two)))
     = Z.min (2 * 2 + 1) (2 * 1).
Proof.
  split; [vm_compute; discriminate |].
  split; [reflexivity |].
  split; [reflexivity |].
  apply (@window_length_after_truncation
           two_exchanges bot_window_1 bot_after_two (utf8 "three")).
  - vm_compute; discriminate.
  - reflexivity.
  - reflexivity.
Defined.

(* ================================================================== *)
(** ** Windows of zero or fewer exchanges *)
(* ================================================================== *)

(** C2: [ChatBot(max_exchanges=0)] on the input "hi". The slice
    [history[-0:]] is [history[0:]], so the user turn stays in the history
    and is sent after the system message: the history has one entry, not
    none, and two messages are sent, not the system message alone. *)
Theorem zero_window_keeps_user_turn :
  max_exchanges bot_window_0 = 0%Z
  /\ history (append_user_and_truncate (utf8 "hi") bot_window_0)
     = [user_message (utf8 "hi")]
  /\ length (history (append_user_and_truncate (utf8 "hi") bot_window_0))
     <> 0
  /\ messages_to_send (utf8 "hi") bot_window_0
     = [system_message_of GENERIC_PROMPT; user_message (utf8 "hi")]
  /\ messages_to_send (utf8 "hi") bot_window_0
     <> [_create_system_prompt bot_window_0].
Proof.
  repeat split; try reflexivity; vm_compute; discriminate.
Qed.

(** With [max_exchanges = 0] nothing is ever dropped: every call that
    returns adds two entries to the history. *)
Lemma zero_window_is_unbounded :
  forall (create : Client) (user_input answer : str) (self : ChatBot),
    max_exchanges self = 0%Z ->
    create (model self) (messages_to_send user_input self)
    = Completed answer ->
    history (fst (get_response create user_input self))
    = history self ++ [user_message user_input; assistant_message answer].
Proof.
  intros create user_input answer self Hzero Hc.
  rewrite (get_response_completed _ _ _ Hc).
  cbn [fst with_history history].
  rewrite history_after_user_turn_zero by assumption.
  rewrite <- app_assoc. reflexivity.
Qed.

(** C6, as stated, fails: the rollback is the slice [history[:-1]], which
    is defined on the empty list. With [max_exchanges = -1] the history is
    empty when the request is made; the failed call drops nothing, raises
    the usual [ConnectionError] and leaves the bot as it was. *)
Lemma rollback_of_empty_history_is_silent :
  slice_to (-1) (@nil message) = []
  /\ history (append_user_and_truncate (utf8 "hi") bot_window_neg) = []
  /\ get_response unreachable (utf8 "hi") bot_window_neg
     = (bot_window_neg,
        ConnectionError
          (error_msg_of (utf8 "Connection error.") default_model)).
Proof.
  repeat split; reflexivity.
Qed.

(** C6 (amended): the rollback never fails. When the completion fails,
    [get_response] drops the last entry of the history, if there is one,
    and raises [ConnectionError]; an empty history stays empty. With
    [max_exchanges >= 0] the history is not empty at that point: its last
    entry is the user turn of the call. *)
Theorem rollback_never_fails :
  forall (create : Client) (user_input : str) (self : ChatBot) (str_e : str),
    create (model self) (messages_to_send user_input self) = Failed str_e ->
    let sent := history (append_user_and_truncate user_input self) in
    get_response create user_input self
    = (with_history self (removelast sent),
       ConnectionError (error_msg_of str_e (model self)))
    /\ (sent = [] ->
        history (fst (get_response create user_input self)) = [])
    /\ ((0 <= max_exchanges self)%Z ->
        exists kept, sent = kept ++ [user_message user_input]).
Proof.
  intros create user_input self str_e Hfail sent.
  rewrite (get_response_failed _ _ _ Hfail). fold sent.
  split; [reflexivity |]. split.
  - intros Hnil. cbn [fst with_history history]. rewrite Hnil. reflexivity.
  - intros Hm. subst sent.
    destruct (Z.eq_dec (max_exchanges self) 0) as [Hzero | Hpos].
    + rewrite history_after_user_turn_zero by assumption. eauto.
    + rewrite history_after_user_turn by lia. eauto.
Qed.

Lemma rollback_never_fails_witness :
  unreachable (model bot_window_neg)
    (messages_to_send (utf8 "hi") bot_window_neg)
  = Failed (utf8 "Connection error.")
  /\ history (fst (get_response unreachable (utf8 "hi") bot_window_neg))
     = [].
Proof.
  split; [reflexivity |].
  apply (@rollback_never_fails unreachable (utf8 "hi") bot_window_neg
           (utf8 "Connection error.")).
  - reflexivity.
  - reflexivity.
Defined.

(* ================================================================== *)
(** ** Blank input *)
(* ================================================================== *)

Lemma isspace_lower_char :
  forall c : N, isspace c = true -> lower_char c = c.
Proof.
  intros c Hc. unfold lower_char.
  destruct ((0x41 <=? c) && (c <=? 0x5A))%N eqn:Hupper; [| reflexivity].
  apply andb_true_iff in Hupper. rewrite !N.leb_le in Hupper.
  unfold isspace in Hc.
  repeat rewrite ?orb_true_iff, ?andb_true_iff, ?N.leb_le, ?N.eqb_eq in Hc.
  lia.
Qed.

Lemma lstrip_blank :
  forall s : str, forallb isspace s = true -> lstrip s = [].
Proof.
  induction s as [| c r IH]; intros Hs; [reflexivity |].
  simpl in Hs. apply andb_true_iff in Hs. destruct Hs as [Hc Hr].
  simpl. rewrite Hc. auto.
Qed.

Lemma strip_blank :
  forall s : str, forallb isspace s = true -> strip s = [].
Proof.
  intros s Hs. unfold strip. rewrite (lstrip_blank s Hs). reflexivity.
Qed.

Lemma blank_is_not_quit :
  forall s : str,
    forallb isspace s = true ->
    mem (lower s) [utf8 "q"; utf8 "quit"] = false.
Proof.
  intros [| c r] Hs; [reflexivity |].
  simpl in Hs. apply andb_true_iff in Hs. destruct Hs as [Hc _].
  assert (Hq : (lower_char c =? 0x71)%N = false).
  { rewrite (isspace_lower_char c Hc). apply N.eqb_neq. intros ->.
    vm_compute in Hc. discriminate. }
  unfold mem, lower. cbn [map existsb].
  change (utf8 "q") with [0x71%N].
  change (utf8 "quit") with [0x71%N; 0x75%N; 0x69%N; 0x74%N].
  cbn [eqb]. rewrite Hq. reflexivity.
Qed.

(** C5, as stated of [get_response], fails: the method has no test for
    blank input. On the three-space string it stores the user turn, sends
    the request and returns the answer. *)
Lemma get_response_sends_blank_input :
  forallb isspace blank = true
  /\ get_response (answering (utf8 "ok")) blank bot_default
     = (with_history bot_default
          [user_message blank; assistant_message (utf8 "ok")],
        Returned (utf8 "ok"))
  /\ history (fst (get_response (answering (utf8 "ok")) blank bot_default))
     <> history bot_default.
Proof.
  repeat split; try reflexivity. vm_compute. discriminate.
Qed.

(** C5 (amended): the test for blank input is in [run_chat_loop]. An
    iteration of the loop on an all-whitespace line continues with the bot
    unchanged, without calling [get_response] and without printing an
    answer or an error. *)
Theorem blank_line_is_skipped :
  forall (create : Client) (user_text : str) (bot : ChatBot),
    forallb isspace user_text = true ->
    loop_iteration create user_text bot = Continue bot []
    /\ forall rest : list (Client * str),
        run_chat_loop ((create, user_text) :: rest) bot
        = run_chat_loop rest bot.
Proof.
  intros create user_text bot Hblank.
  assert (Hskip : loop_iteration create user_text bot = Continue bot []).
  { unfold loop_iteration.
    rewrite (blank_is_not_quit user_text Hblank).
    rewrite (strip_blank user_text Hblank).
    reflexivity. }
  split; [exact Hskip |].
  intros rest. cbn [run_chat_loop]. rewrite Hskip.
  destruct (run_chat_loop rest bot) as [bot' out]. reflexivity.
Qed.

Lemma blank_line_is_skipped_witness :
  forallb isspace blank = true
  /\ loop_iteration unreachable blank bot_after_two
     = Continue bot_after_two [].
Proof.
  split; [reflexivity |].
  apply (blank_line_is_skipped unreachable blank bot_after_two).
  reflexivity.
Defined.

(* ================================================================== *)
(** ** split, join and strip *)
(* ================================================================== *)

Lemma split_not_nil : forall (sep : N) (s : str), split sep s <> [].
Proof.
  intros sep [| c r]; simpl; [discriminate |].
  destruct (c =? sep)%N; [discriminate |].
  destruct (split sep r); discriminate.
Qed.

Lemma join_cons2 :
  forall (sep x y : str) (rest : list str),
    join sep (x :: y :: rest) = x ++ sep ++ join sep (y :: rest).
Proof. reflexivity. Qed.

(** Joining the pieces with the separator gives the string back. *)
Lemma join_split :
  forall (sep : N) (s : str), join [sep] (split sep s) = s.
Proof.
  intros sep. induction s as [| c r IH]; [reflexivity |].
  simpl split. destruct (N.eqb_spec c sep) as [-> | Hne].
  - destruct (split sep r) as [| piece pieces] eqn:Hsplit.
    + exfalso. exact (split_not_nil sep r Hsplit).
    + rewrite join_cons2, IH. reflexivity.
  - destruct (split sep r) as [| piece pieces] eqn:Hsplit.
    + exfalso. exact (split_not_nil sep r Hsplit).
    + destruct pieces as [| piece' pieces'].
      * simpl in IH |- *. rewrite IH. reflexivity.
      * rewrite join_cons2 in IH |- *. rewrite <- IH. reflexivity.
Qed.

(** No piece contains the separator. *)
Lemma split_pieces_free :
  forall (sep : N) (s : str),
    Forall (fun piece => ~ In sep piece) (split sep s).
Proof.
  intros sep. induction s as [| c r IH].
  - constructor; [intros [] | constructor].
  - simpl. destruct (N.eqb_spec c sep) as [-> | Hne].
    + constructor; [intros [] | exact IH].
    + destruct (split sep r) as [| piece pieces];
        [constructor; [intros [Heq | []]; congruence | constructor] |].
      inversion IH as [| ? ? Hpiece Hpieces]; subst.
      constructor; [| assumption].
      intros [Heq | Hin]; [congruence | exact (Hpiece Hin)].
Qed.

Lemma lstrip_spec :
  forall s : str,
    exists before,
      s = before ++ lstrip s
      /\ forallb isspace before = true
      /\ starts_with_space (lstrip s) = false.
Proof.
  induction s as [| c r (before & Heq & Hbefore & Hstart)].
  - exists []. repeat split.
  - simpl. destruct (isspace c) eqn:Hc.
    + exists (c :: before). simpl. rewrite Hc, Hbefore, <- Heq.
      repeat split. assumption.
    + exists []. simpl. rewrite Hc. repeat split.
Qed.

Lemma forallb_rev :
  forall (A : Type) (f : A -> bool) (l : list A),
    forallb f (rev l) = forallb f l.
Proof.
  intros A f. induction l as [| x l IH]; [reflexivity |].
  simpl. rewrite forallb_app, IH. simpl.
  rewrite andb_true_r. apply andb_comm.
Qed.

(** [strip] cuts off white space, and only white space, at both ends. *)
Lemma strip_spec : forall piece : str, is_trim_of piece (strip piece).
Proof.
  intros piece. unfold is_trim_of, strip, rstrip.
  destruct (lstrip_spec piece) as (before & Heq & Hbefore & Hstart).
  destruct (lstrip_spec (rev (lstrip piece)))
    as (after & Heq' & Hafter & Hend).
  set (t := lstrip piece) in *.
  set (core := lstrip (rev t)) in *.
  assert (Ht : t = rev core ++ rev after).
  { rewrite <- rev_app_distr, <- Heq'. symmetry. apply rev_involutive. }
  exists before, (rev after).
  split; [rewrite <- Ht; exact Heq |].
  split; [assumption |].
  split; [rewrite forallb_rev; assumption |].
  split.
  - destruct (rev core) as [| c rest] eqn:Hcore; [reflexivity |].
    rewrite Ht in Hstart. exact Hstart.
  - unfold ends_with_space. rewrite rev_involutive. assumption.
Qed.

(** Filtering on the trimmed piece and then trimming is trimming and then
    discarding what is empty. *)
Lemma strip_filter_commute :
  forall pieces : list str,
    map strip (filter (fun item => truthy (strip item)) pieces)
    = filter truthy (map strip pieces).
Proof.
  induction pieces as [| piece pieces IH]; [reflexivity |].
  simpl. destruct (truthy (strip piece)); simpl; rewrite IH; reflexivity.
Qed.

(** C7: [set_user_profile] stores the name as given and, as context items,
    the pieces of the raw string between its commas, each trimmed, the
    empty ones discarded, in their order and with their duplicates; the
    rest of the bot is untouched. For "Ana" and
    "chess, hiking,  reading " the items are chess, hiking, reading. *)
Theorem set_user_profile_parses_context :
  forall (name context_info_str : str) (self : ChatBot),
    let pieces := split comma context_info_str in
    let self' := set_user_profile name context_info_str self in
    join [comma] pieces = context_info_str
    /\ Forall (fun piece => ~ In comma piece) pieces
    /\ (forall piece, is_trim_of piece (strip piece))
    /\ user_profile self'
       = profile_is name (filter truthy (map strip pieces))
    /\ history self' = history self
    /\ model self' = model self
    /\ max_exchanges self' = max_exchanges self
    /\ user_profile
         (set_user_profile (utf8 "Ana") (utf8 "chess, hiking,  reading ")
                           self)
       = profile_is (utf8 "Ana")
                    [utf8 "chess"; utf8 "hiking"; utf8 "reading"]
    /\ key_context_items
         (user_profile (set_user_profile name (utf8 "a, b ,,a, ") self))
       = Some [utf8 "a"; utf8 "b"; utf8 "a"].
Proof.
  intros name context_info_str self pieces self'.
  split; [apply join_split |].
  split; [apply split_pieces_free |].
  split; [apply strip_spec |].
  split.
  - subst self' pieces. unfold set_user_profile, parse_context_items.
    cbn [with_user_profile user_profile].
    rewrite strip_filter_commute. reflexivity.
  - repeat split.
Qed.

(* ================================================================== *)
(** ** The system prompt *)
(* ================================================================== *)

Lemma system_prompt_of_profile :
  forall (self : ChatBot) (name : str) (context_items : list str),
    user_profile self = profile_is name context_items ->
    _create_system_prompt self
    = system_message_of
        (PROMPT_HEAD ++ name ++ PROMPT_MIDDLE
         ++ context_str_of context_items ++ PROMPT_TAIL).
Proof.
  intros self name context_items Hp.
  unfold _create_system_prompt. rewrite Hp. reflexivity.
Qed.

Lemma system_prompt_without_profile :
  forall self : ChatBot,
    user_profile self = empty_dict ->
    _create_system_prompt self = system_message_of GENERIC_PROMPT.
Proof.
  intros self Hp. unfold _create_system_prompt. rewrite Hp. reflexivity.
Qed.

(** The personalised prompt differs from the generic one in its sixth
    character, whatever the name and the context are. *)
Lemma personalized_is_not_generic :
  forall rest : str, PROMPT_HEAD ++ rest <> GENERIC_PROMPT.
Proof.
  intros rest Heq.
  apply (f_equal (fun s => nth 5 s 0%N)) in Heq.
  cbv in Heq. discriminate.
Qed.

Lemma joined_context_occurs :
  forall context_items : list str,
    occurs_in (join COMMA_SPACE context_items)
              (context_str_of context_items).
Proof.
  intros [| item items].
  - exists [], CONTEXT_PLACEHOLDER. reflexivity.
  - exists [], []. unfold context_str_of. cbn [truthy].
    rewrite app_nil_r. reflexivity.
Qed.

(** C8: the system prompt is a function of the profile alone, so two
    calls between which the state does not change (or changes in its
    history only) return the same message. When the profile holds a name
    and context items, the content is the fixed text around the name and
    the context string; the name occurs in it verbatim, and so do the
    context items joined by comma and space, in their order. *)
Theorem system_prompt_stable_and_embeds_profile :
  forall self other : ChatBot,
    user_profile other = user_profile self ->
    _create_system_prompt other = _create_system_prompt self
    /\ forall (name : str) (context_items : list str),
        user_profile self = profile_is name context_items ->
        role (_create_system_prompt self) = utf8 "system"
        /\ content (_create_system_prompt self)
           = PROMPT_HEAD ++ name ++ PROMPT_MIDDLE
             ++ context_str_of context_items ++ PROMPT_TAIL
        /\ occurs_in name (content (_create_system_prompt self))
        /\ occurs_in (join COMMA_SPACE context_items)
                     (content (_create_system_prompt self)).
Proof.
  intros self other Hsame. split.
  - unfold _create_system_prompt. rewrite Hsame. reflexivity.
  - intros name context_items Hp.
    rewrite (system_prompt_of_profile self Hp).
    cbn [role content system_message_of].
    split; [reflexivity |]. split; [reflexivity |]. split.
    + exists PROMPT_HEAD,
        (PROMPT_MIDDLE ++ context_str_of context_items ++ PROMPT_TAIL).
      reflexivity.
    + destruct (joined_context_occurs context_items)
        as (before & after & Hctx).
      exists (PROMPT_HEAD ++ name ++ PROMPT_MIDDLE ++ before),
        (after ++ PROMPT_TAIL).
      rewrite Hctx. rewrite <- !app_assoc. reflexivity.
Qed.

Lemma system_prompt_stable_and_embeds_profile_witness :
  user_profile (fst (get_response (answering (utf8 "hi")) (utf8 "hello")
                                  bot_ana))
  = user_profile bot_ana
  /\ user_profile bot_ana
     = profile_is (utf8 "Ana") [utf8 "chess"; utf8 "hiking"; utf8 "reading"]
  /\ _create_system_prompt
       (fst (get_response (answering (utf8 "hi")) (utf8 "hello") bot_ana))
     = _create_system_prompt bot_ana
  /\ occurs_in (utf8 "Ana") (content (_create_system_prompt bot_ana))
  /\ occurs_in (utf8 "chess, hiking, reading")
               (content (_create_system_prompt bot_ana)).
Proof.
  split; [reflexivity |]. split; [reflexivity |].
  destruct (@system_prompt_stable_and_embeds_profile bot_ana
              (fst (get_response (answering (utf8 "hi")) (utf8 "hello")
                                 bot_ana)))
    as [Hstable Hembed]; [reflexivity |].
  destruct (Hembed (utf8 "Ana")
                   [utf8 "chess"; utf8 "hiking"; utf8 "reading"])
    as (_ & _ & Hname & Hitems); [reflexivity |].
  split; [exact Hstable |]. split; [exact Hname | exact Hitems].
Defined.

(* ================================================================== *)
(** ** clear_history *)
(* ================================================================== *)

(** C9: [clear_history] leaves the history empty and the profile, the
    model name and the window size as they were; the system prompt is the
    same before and after. *)
Theorem clear_history_frame :
  forall self : ChatBot,
    history (clear_history self) = []
    /\ user_profile (clear_history self) = user_profile self
    /\ model (clear_history self) = model self
    /\ max_exchanges (clear_history self) = max_exchanges self
    /\ _create_system_prompt (clear_history self)
       = _create_system_prompt self.
Proof.
  intros self. repeat split.
Qed.

(* ================================================================== *)
(** ** The profile during a session *)
(* ================================================================== *)

Lemma user_profile_apply_operation :
  forall (op : operation) (self : ChatBot),
    is_set_user_profile op = false ->
    user_profile (apply_operation op self) = user_profile self.
Proof.
  intros [name raw | create user_input |] self Hop;
    [discriminate | apply user_profile_get_response | reflexivity].
Qed.

Lemma profile_set_apply_operation :
  forall (op : operation) (self : ChatBot),
    (exists name items, user_profile self = profile_is name items) ->
    exists name items,
      user_profile (apply_operation op self) = profile_is name items.
Proof.
  intros op self Hset.
  destruct (is_set_user_profile op) eqn:Hop.
  - destruct op as [name raw | |]; try discriminate.
    exists name, (parse_context_items raw). reflexivity.
  - rewrite (user_profile_apply_operation op self Hop). exact Hset.
Qed.

(** Once set, the profile stays set. *)
Lemma profile_set_session :
  forall (ops : list operation) (self : ChatBot),
    (exists name items, user_profile self = profile_is name items) ->
    exists name items,
      user_profile (session ops self) = profile_is name items.
Proof.
  unfold session.
  induction ops as [| op ops IH]; intros self Hset; [exact Hset |].
  simpl. apply IH. apply profile_set_apply_operation. exact Hset.
Qed.

(** A session keeps the profile empty exactly when it never calls
    [set_user_profile]. *)
Lemma profile_of_session :
  forall (ops : list operation) (self : ChatBot),
    if existsb is_set_user_profile ops
    then exists name items,
        user_profile (session ops self) = profile_is name items
    else user_profile (session ops self) = user_profile self.
Proof.
  unfold session.
  induction ops as [| op ops IH]; intros self; [reflexivity |].
  simpl. destruct (is_set_user_profile op) eqn:Hop; simpl.
  - apply (profile_set_session ops).
    destruct op as [name raw | |]; try discriminate.
    exists name, (parse_context_items raw). reflexivity.
  - specialize (IH (apply_operation op self)).
    destruct (existsb is_set_user_profile ops); [exact IH |].
    rewrite IH. apply user_profile_apply_operation. exact Hop.
Qed.

(** C10: after [set_user_profile], with any name and any context string,
    and through any further operations of the session, the profile dict
    is not empty and the system prompt is the personalised one, which is
    never the generic content. From a fresh bot, the prompt is the
    generic one exactly as long as [set_user_profile] has not been
    called. *)
Theorem prompt_is_personalized_after_set_user_profile :
  forall (name context_info_str : str) (self : ChatBot)
         (ops : list operation),
    let self' := session ops (set_user_profile name context_info_str self) in
    dict_truthy (user_profile (set_user_profile name context_info_str self))
    = true
    /\ dict_truthy (user_profile self') = true
    /\ (exists name' items,
           user_profile self' = profile_is name' items
           /\ content (_create_system_prompt self')
              = PROMPT_HEAD ++ name' ++ PROMPT_MIDDLE
                ++ context_str_of items ++ PROMPT_TAIL)
    /\ content (_create_system_prompt self') <> GENERIC_PROMPT
    /\ (forall (model : str) (max_exchanges : Z) (ops0 : list operation),
           content (_create_system_prompt
                      (session ops0 (__init__ model max_exchanges)))
           = GENERIC_PROMPT
           <-> existsb is_set_user_profile ops0 = false).
Proof.
  intros name context_info_str self ops self'.
  assert (Hset : exists name' items,
             user_profile self' = profile_is name' items).
  { apply profile_set_session.
    exists name, (parse_context_items context_info_str). reflexivity. }
  destruct Hset as (name' & items & Hp).
  split; [reflexivity |].
  split; [rewrite Hp; reflexivity |].
  split.
  { exists name', items. split; [exact Hp |].
    rewrite (system_prompt_of_profile self' Hp). reflexivity. }
  split.
  { rewrite (system_prompt_of_profile self' Hp).
    cbn [content system_message_of].
    apply personalized_is_not_generic. }
  intros model0 m0 ops0.
  pose proof (profile_of_session ops0 (__init__ model0 m0)) as Hs.
  destruct (existsb is_set_user_profile ops0).
  - destruct Hs as (n0 & items0 & Hp0).
    rewrite (system_prompt_of_profile _ Hp0).
    split; [| discriminate].
    cbn [content system_message_of].
    intros Hgen. exfalso.
    exact (personalized_is_not_generic Hgen).
  - rewrite (system_prompt_without_profile _ Hs).
    split; reflexivity.
Qed.

(* ================================================================== *)
(** ** Invariants of a session *)
(* ================================================================== *)

Lemma session_cons :
  forall (op : operation) (ops : list operation) (self : ChatBot),
    session (op :: ops) self = session ops (apply_operation op self).
Proof. reflexivity. Qed.

Lemma max_exchanges_apply_operation :
  forall (op : operation) (self : ChatBot),
    max_exchanges (apply_operation op self) = max_exchanges self.
Proof.
  intros [name raw | create user_input |] self;
    [reflexivity | apply max_exchanges_get_response | reflexivity].
Qed.

Lemma model_get_response :
  forall (create : Client) (user_input : str) (self : ChatBot),
    model (fst (get_response create user_input self)) = model self.
Proof.
  intros create user_input self. unfold get_response.
  destruct (create _ _); reflexivity.
Qed.

(** The three ways a call of [get_response] can end, with the history
    each leaves, in terms of the history [sent] with the request. *)
Lemma get_response_cases :
  forall (create : Client) (user_input : str) (self : ChatBot),
    let sent := history (append_user_and_truncate user_input self) in
    (exists answer,
        snd (get_response create user_input self) = Returned answer
        /\ history (fst (get_response create user_input self))
           = sent ++ [assistant_message answer])
    \/ (exists error_msg,
           snd (get_response create user_input self)
           = ConnectionError error_msg
           /\ history (fst (get_response create user_input self))
              = removelast sent)
    \/ (snd (get_response create user_input self) = KeyboardInterrupt
        /\ history (fst (get_response create user_input self)) = sent).
Proof.
  intros create user_input self sent.
  destruct (create (model self) (messages_to_send user_input self))
    as [answer | str_e |] eqn:Hc.
  - left. exists answer.
    rewrite (get_response_completed _ _ _ Hc). split; reflexivity.
  - right. left. exists (error_msg_of str_e (model self)).
    rewrite (get_response_failed _ _ _ Hc). split; reflexivity.
  - right. right.
    rewrite (get_response_interrupted _ _ _ Hc). split; reflexivity.
Qed.

Lemma length_removelast_le :
  forall (A : Type) (l : list A), length (removelast l) <= length l.
Proof.
  intros A l. rewrite removelast_firstn_len, length_firstn. lia.
Qed.

(** The bound on the history and on the requests of a session. *)
Lemma window_bound_session :
  forall (ops : list operation) (self : ChatBot),
    (1 <= max_exchanges self)%Z ->
    (Z.of_nat (length (history self)) <= 2 * max_exchanges self + 1)%Z ->
    (Z.of_nat (length (history (session ops self)))
     <= 2 * max_exchanges self + 1)%Z
    /\ Forall (fun request =>
                 (Z.of_nat (length request)
                  <= 2 * max_exchanges self + 1)%Z)
              (requests_of ops self).
Proof.
  induction ops as [| op ops IH]; intros self Hm Hlen.
  - split; [exact Hlen | constructor].
  - rewrite session_cons. cbn [requests_of].
    assert (Hsent : forall user_input,
               (Z.of_nat (length (history (append_user_and_truncate
                                             user_input self)))
                <= 2 * max_exchanges self)%Z).
    { intros user_input. rewrite history_after_user_turn by assumption.
      rewrite length_app, length_lastn. simpl length. lia. }
    assert (Hstep : (Z.of_nat (length (history (apply_operation op self)))
                     <= 2 * max_exchanges self + 1)%Z).
    { destruct op as [name raw | create user_input |]; cbn [apply_operation].
      - exact Hlen.
      - specialize (Hsent user_input).
        destruct (get_response_cases create user_input self)
          as [(answer & _ & ->) | [(error_msg & _ & ->) | (_ & ->)]].
        + rewrite length_app. cbn [length]. lia.
        + pose proof (length_removelast_le
                        (history (append_user_and_truncate user_input self))).
          lia.
        + lia.
      - cbn [clear_history with_history history length]. lia. }
    destruct (IH (apply_operation op self)) as [IHlen IHreq].
    + rewrite max_exchanges_apply_operation. exact Hm.
    + rewrite max_exchanges_apply_operation. exact Hstep.
    + rewrite max_exchanges_apply_operation in IHlen, IHreq.
      split; [exact IHlen |].
      apply Forall_app. split; [| exact IHreq].
      destruct op as [name raw | create user_input |]; constructor;
        [| constructor].
      unfold messages_to_send. rewrite length_app. cbn [length].
      specialize (Hsent user_input). lia.
Qed.

(** X1: with [max_exchanges >= 1], a session that starts with at most
    [2 * max_exchanges + 1] turns in the history never holds more, and no
    request carries more than [2 * max_exchanges + 1] messages, the
    system message included. *)
Theorem history_stays_within_window :
  forall (ops : list operation) (self : ChatBot),
    (1 <= max_exchanges self)%Z ->
    (Z.of_nat (length (history self)) <= 2 * max_exchanges self + 1)%Z ->
    (Z.of_nat (length (history (session ops self)))
     <= 2 * max_exchanges self + 1)%Z
    /\ Forall (fun request =>
                 (Z.of_nat (length request)
                  <= 2 * max_exchanges self + 1)%Z)
              (requests_of ops self).
Proof.
  intros ops self Hm Hlen. exact (window_bound_session ops self Hm Hlen).
Qed.

Lemma history_stays_within_window_witness :
  (1 <= max_exchanges bot_window_1)%Z
  /\ (Z.of_nat (length (history bot_window_1))
      <= 2 * max_exchanges bot_window_1 + 1)%Z
  /\ (Z.of_nat (length (history (session (calls_as_operations two_exchanges)
                                         bot_window_1)))
      <= 2 * max_exchanges bot_window_1 + 1)%Z.
Proof.
  split; [vm_compute; discriminate |].
  split; [vm_compute; discriminate |].
  apply (@history_stays_within_window
           (calls_as_operations two_exchanges) bot_window_1).
  - vm_compute; discriminate.
  - vm_compute; discriminate.
Defined.

(* ------------------------------------------------------------------ *)

Lemma removelast_skipn_snoc :
  forall (A : Type) (k : nat) (l : list A) (x : A),
    exists dropped, l = dropped ++ removelast (skipn k (l ++ [x])).
Proof.
  intros A k l x. destruct (Nat.le_gt_cases k (length l)) as [Hle | Hgt].
  - exists (firstn k l). rewrite skipn_app.
    replace (k - length l) with 0 by lia. cbn [skipn].
    rewrite removelast_last. symmetry. apply firstn_skipn.
  - exists l. rewrite skipn_all2 by (rewrite length_app; simpl; lia).
    simpl. symmetry. apply app_nil_r.
Qed.

(** The history after an operation is a final part of the transcript
    after it, if it was one before. *)
Lemma suffix_apply_operation :
  forall (op : operation) (self : ChatBot) (transcript : list message),
    (exists dropped, transcript = dropped ++ history self) ->
    exists dropped,
      record_operation op self transcript
      = dropped ++ history (apply_operation op self).
Proof.
  intros [name raw | create user_input |] self transcript [dropped Ht].
  - exists dropped. exact Ht.
  - cbn [record_operation apply_operation].
    destruct (get_response_cases create user_input self)
      as [(answer & -> & ->) | [(error_msg & -> & ->) | (-> & ->)]].
    + unfold append_user_and_truncate, slice_from.
      cbn [with_history history].
      set (appended := history self ++ [user_message user_input]).
      set (k := Z.to_nat _).
      exists (dropped ++ firstn k appended).
      rewrite Ht, <- !app_assoc. f_equal.
      rewrite (app_assoc (firstn k appended)), firstn_skipn.
      unfold appended. rewrite <- app_assoc. reflexivity.
    + unfold append_user_and_truncate, slice_from.
      cbn [with_history history].
      set (k := Z.to_nat _).
      destruct (removelast_skipn_snoc k (history self)
                                      (user_message user_input))
        as [dropped' Hd].
      exists (dropped ++ dropped'). rewrite Ht.
      rewrite Hd at 1. rewrite <- app_assoc. reflexivity.
    + unfold append_user_and_truncate, slice_from.
      cbn [with_history history].
      set (appended := history self ++ [user_message user_input]).
      set (k := Z.to_nat _).
      exists (dropped ++ firstn k appended).
      rewrite Ht, <- !app_assoc. f_equal.
      symmetry. apply firstn_skipn.
  - exists []. reflexivity.
Qed.

(** X2: whatever [max_exchanges] is and however the calls end, the
    history is a final part of the transcript of the session since the
    last [clear_history]: the user turn and the answer of each call that
    returned and the user turn of each call that was interrupted, in
    their order. Nothing else is ever stored: no turn of a call that
    raised [ConnectionError], no system message, no turn twice or out of
    order. *)
Theorem history_is_suffix_of_transcript :
  forall (ops : list operation) (self : ChatBot),
    exists dropped,
      transcript_of ops self (history self)
      = dropped ++ history (session ops self).
Proof.
  intros ops self.
  assert (Hgen : forall ops self transcript,
             (exists dropped, transcript = dropped ++ history self) ->
             exists dropped,
               transcript_of ops self transcript
               = dropped ++ history (session ops self)).
  { clear ops self.
    induction ops as [| op ops IH]; intros self transcript Hsuffix.
    - exact Hsuffix.
    - rewrite session_cons. cbn [transcript_of].
      apply IH. apply suffix_apply_operation. exact Hsuffix. }
  apply Hgen. exists []. reflexivity.
Qed.

(* ------------------------------------------------------------------ *)

Lemma eqb_refl : forall s : str, eqb s s = true.
Proof.
  induction s as [| c s IH]; [reflexivity |].
  simpl. rewrite N.eqb_refl. exact IH.
Qed.

Lemma eqb_eq : forall s t : str, eqb s t = true <-> s = t.
Proof.
  split.
  - revert t. induction s as [| c s IH]; intros [| d t] Heq;
      try discriminate; [reflexivity |].
    simpl in Heq. apply andb_true_iff in Heq. destruct Heq as [Hc Hs].
    apply N.eqb_eq in Hc. subst d. f_equal. auto.
  - intros ->. apply eqb_refl.
Qed.

Lemma rev_skipn :
  forall (A : Type) (k : nat) (l : list A),
    rev (skipn k l) = firstn (length l - k) (rev l).
Proof.
  intros A k l. rewrite firstn_rev. f_equal.
  destruct (Nat.le_gt_cases k (length l)) as [Hle | Hgt].
  - f_equal. lia.
  - replace (length l - (length l - k)) with (length l) by lia.
    rewrite !skipn_all2 by lia. reflexivity.
Qed.

Lemma rev_removelast :
  forall (A : Type) (l : list A), rev (removelast l) = tl (rev l).
Proof.
  intros A l. destruct l as [| x l'] using rev_ind; [reflexivity |].
  rewrite removelast_last, rev_app_distr. reflexivity.
Qed.

Lemma alternates_back_firstn :
  forall (n : nat) (turns : list message) (expect_user : bool),
    alternates_back expect_user turns = true ->
    alternates_back expect_user (firstn n turns) = true.
Proof.
  induction n as [| n IH]; intros [| turn earlier] expect_user Halt;
    try reflexivity.
  simpl in Halt |- *. apply andb_true_iff in Halt.
  destruct Halt as [-> Hrest]. simpl. auto.
Qed.

Lemma alternates_back_tl :
  forall (turns : list message) (expect_user : bool),
    alternates_back expect_user turns = true ->
    alternates_back (negb expect_user) (tl turns) = true.
Proof.
  intros [| turn earlier] expect_user Halt.
  - reflexivity.
  - simpl in Halt. apply andb_true_iff in Halt. tauto.
Qed.

(** Right after the truncation the turns alternate backwards from the
    user turn of the call. *)
Lemma alternates_after_user_turn :
  forall (user_input : str) (self : ChatBot),
    alternates_back false (rev (history self)) = true ->
    alternates_back true
      (rev (history (append_user_and_truncate user_input self))) = true.
Proof.
  intros user_input self Halt.
  unfold append_user_and_truncate, slice_from. cbn [with_history history].
  rewrite rev_skipn. apply alternates_back_firstn.
  rewrite rev_app_distr. cbn [rev app alternates_back role user_message].
  rewrite eqb_refl. exact Halt.
Qed.


Lemma Forall_skipn_part :
  forall (A : Type) (P : A -> Prop) (k : nat) (l : list A),
    Forall P l -> Forall P (skipn k l).
Proof.
  intros A P k l Hall. rewrite <- (firstn_skipn k l) in Hall.
  apply Forall_app in Hall. tauto.
Qed.

Lemma Forall_removelast_part :
  forall (A : Type) (P : A -> Prop) (l : list A),
    Forall P l -> Forall P (removelast l).
Proof.
  intros A P l Hall. rewrite removelast_firstn_len.
  rewrite <- (firstn_skipn (Nat.pred (length l)) l) in Hall.
  apply Forall_app in Hall. tauto.
Qed.

(** Only user turns and answers are stored, however a call ends. *)
Lemma roles_apply_operation :
  forall (op : operation) (self : ChatBot),
    Forall (fun turn => role turn = utf8 "user"
                        \/ role turn = utf8 "assistant") (history self) ->
    Forall (fun turn => role turn = utf8 "user"
                        \/ role turn = utf8 "assistant")
           (history (apply_operation op self)).
Proof.
  intros [name raw | create user_input |] self Hroles.
  - exact Hroles.
  - cbn [apply_operation].
    assert (Hsent : Forall (fun turn => role turn = utf8 "user"
                                        \/ role turn = utf8 "assistant")
                           (history (append_user_and_truncate
                                       user_input self))).
    { unfold append_user_and_truncate, slice_from.
      cbn [with_history history]. apply Forall_skipn_part.
      apply Forall_app. split; [exact Hroles |].
      constructor; [left; reflexivity | constructor]. }
    destruct (get_response_cases create user_input self)
      as [(answer & _ & ->) | [(error_msg & _ & ->) | (_ & ->)]].
    + apply Forall_app. split; [exact Hsent |].
      constructor; [right; reflexivity | constructor].
    + apply Forall_removelast_part. exact Hsent.
    + exact Hsent.
  - constructor.
Qed.

Lemma roles_session :
  forall (ops : list operation) (self : ChatBot),
    Forall (fun turn => role turn = utf8 "user"
                        \/ role turn = utf8 "assistant") (history self) ->
    Forall (fun turn => role turn = utf8 "user"
                        \/ role turn = utf8 "assistant")
           (history (session ops self)).
Proof.
  induction ops as [| op ops IH]; intros self Hroles; [exact Hroles |].
  rewrite session_cons. apply IH, roles_apply_operation, Hroles.
Qed.

(** An operation that is not an interrupted call keeps the turns
    alternating up to a last answer. *)
Lemma alternates_apply_operation :
  forall (op : operation) (self : ChatBot),
    uninterrupted [op] self = true ->
    alternates_back false (rev (history self)) = true ->
    alternates_back false (rev (history (apply_operation op self))) = true.
Proof.
  intros [name raw | create user_input |] self Hop Halt.
  - exact Halt.
  - cbn [apply_operation]. cbn [uninterrupted] in Hop.
    pose proof (alternates_after_user_turn user_input self Halt) as Hsent.
    destruct (get_response_cases create user_input self)
      as [(answer & _ & ->) | [(error_msg & _ & ->) | (Hint & _)]].
    + rewrite rev_app_distr.
      cbn [rev app alternates_back role assistant_message negb].
      rewrite eqb_refl. exact Hsent.
    + rewrite rev_removelast.
      exact (alternates_back_tl _ _ Hsent).
    + rewrite Hint in Hop. discriminate.
  - reflexivity.
Qed.

Lemma alternates_session :
  forall (ops : list operation) (self : ChatBot),
    uninterrupted ops self = true ->
    alternates_back false (rev (history self)) = true ->
    alternates_back false (rev (history (session ops self))) = true.
Proof.
  induction ops as [| op ops IH]; intros self Hops Halt; [exact Halt |].
  rewrite session_cons.
  cbn [uninterrupted] in Hops. apply andb_true_iff in Hops.
  destruct Hops as [Hop Hrest].
  apply IH; [exact Hrest |].
  apply alternates_apply_operation; [| exact Halt].
  cbn [uninterrupted]. rewrite Hop. reflexivity.
Qed.



(* ------------------------------------------------------------------ *)

Lemma successful_exchanges_session :
  forall (calls : list (Client * str)) (start self : ChatBot),
    successful_exchanges calls start = Some self ->
    self = session (calls_as_operations calls) start
    /\ uninterrupted (calls_as_operations calls) start = true.
Proof.
  induction calls as [| [create user_input] rest IH]; intros start self Hrun.
  - injection Hrun as <-. split; reflexivity.
  - simpl in Hrun.
    cbn [calls_as_operations map fst snd uninterrupted].
    rewrite session_cons. cbn [apply_operation].
    destruct (get_response create user_input start)
      as [self1 [answer | e |]]; [| discriminate | discriminate].
    cbn [fst snd andb]. exact (IH self1 self Hrun).
Qed.

(** The role at each place of an alternating list. *)
Lemma alternates_back_nth :
  forall (turns : list message) (expect_user : bool) (i : nat)
         (d : message),
    alternates_back expect_user turns = true ->
    i < length turns ->
    role (nth i turns d)
    = if (if expect_user then Nat.even i else Nat.odd i)
      then utf8 "user" else utf8 "assistant".
Proof.
  induction turns as [| turn earlier IH]; intros expect_user i d Halt Hi;
    [simpl in Hi; lia |].
  simpl in Halt. apply andb_true_iff in Halt. destruct Halt as [Hrole Hrest].
  apply eqb_eq in Hrole.
  destruct i as [| i].
  - destruct expect_user; exact Hrole.
  - cbn [nth]. rewrite (IH (negb expect_user) i d Hrest)
      by (simpl in Hi; lia).
    rewrite Nat.even_succ, Nat.odd_succ.
    destruct expect_user; reflexivity.
Qed.

(** X4: with [max_exchanges >= 1], once [max_exchanges] exchanges have
    succeeded from an empty history, the request of the next call has
    exactly [2 * max_exchanges + 1] messages: the system message, then an
    answer whose question has been dropped, and the new user turn last.
    The endpoint sees [max_exchanges - 1] complete earlier exchanges. *)
Theorem full_window_request_starts_with_answer :
  forall (calls : list (Client * str)) (start self : ChatBot)
         (user_input : str),
    (1 <= max_exchanges start)%Z ->
    history start = [] ->
    successful_exchanges calls start = Some self ->
    (max_exchanges start <= Z.of_nat (length calls))%Z ->
    exists (first : message) (middle : list message),
      messages_to_send user_input self
      = _create_system_prompt self
          :: first :: middle ++ [user_message user_input]
      /\ role first = utf8 "assistant"
      /\ Z.of_nat (length middle) = (2 * max_exchanges start - 2)%Z.
Proof.
  intros calls start self user_input Hm Hempty Hrun Hfull.
  assert (Hzero : Z.of_nat (length (history start))
                  = Z.min (2 * 0) (2 * max_exchanges start + 1))
    by (rewrite Hempty; simpl length; lia).
  destruct (@length_after_successful_exchanges
              calls start self 0%Z Hm Hzero Hrun) as [Hm' Hlen].
  assert (Halt : alternates_back true
                   (rev (history (append_user_and_truncate user_input self)))
                 = true).
  { apply alternates_after_user_turn.
    destruct (successful_exchanges_session _ _ Hrun) as [-> Hun].
    apply alternates_session; [exact Hun |].
    rewrite Hempty. reflexivity. }
  unfold messages_to_send. cbn [app].
  rewrite history_after_user_turn in Halt |- * by (rewrite Hm'; assumption).
  pose proof (length_lastn (Z.to_nat (2 * max_exchanges self - 1))
                           (history self)) as Hkept.
  destruct (lastn (Z.to_nat (2 * max_exchanges self - 1)) (history self))
    as [| first middle]; [cbn [length] in Hkept; lia |].
  exists first, middle. split; [reflexivity |].
  cbn [length] in Hkept. split; [| lia].
  rewrite rev_app_distr in Halt. cbn [rev app] in Halt.
  pose proof (@alternates_back_nth _ true (S (length (rev middle)))
                first Halt) as Hnth.
  cbn [nth] in Hnth. rewrite nth_middle in Hnth.
  rewrite Hnth.
  - rewrite length_rev, Nat.even_succ.
    replace (length middle) with (2 * Z.to_nat (max_exchanges self - 1))
      by lia.
    rewrite Nat.odd_mul. reflexivity.
  - cbn [length]. rewrite length_app. cbn [length]. lia.
Qed.

Lemma full_window_request_starts_with_answer_witness :
  (1 <= max_exchanges bot_window_1)%Z
  /\ history bot_window_1 = []
  /\ successful_exchanges two_exchanges bot_window_1 = Some bot_after_two
  /\ (max_exchanges bot_window_1 <= Z.of_nat (length two_exchanges))%Z
  /\ exists (first : message) (middle : list message),
      messages_to_send (utf8 "three") bot_after_two
      = _create_system_prompt bot_after_two
          :: first :: middle ++ [user_message (utf8 "three")]
      /\ role first = utf8 "assistant"
      /\ Z.of_nat (length middle) = (2 * max_exchanges bot_window_1 - 2)%Z.
Proof.
  split; [vm_compute; discriminate |].
  split; [reflexivity |].
  split; [reflexivity |].
  split; [vm_compute; discriminate |].
  apply (@full_window_request_starts_with_answer
           two_exchanges bot_window_1 bot_after_two (utf8 "three")).
  - vm_compute; discriminate.
  - reflexivity.
  - reflexivity.
  - vm_compute; discriminate.
Defined.

(* ================================================================== *)
(** ** Sessions with a window of zero or fewer exchanges *)
(* ================================================================== *)

Lemma role_create_system_prompt :
  forall self : ChatBot, role (_create_system_prompt self) = utf8 "system".
Proof.
  intros self. unfold _create_system_prompt.
  destruct (negb (dict_truthy (user_profile self))); reflexivity.
Qed.

(** With a negative window and at most one stored turn, the slice drops
    the whole history together with the new user turn. *)
Lemma negative_window_sends_nothing :
  forall (user_input : str) (self : ChatBot),
    (max_exchanges self < 0)%Z ->
    length (history self) <= 1 ->
    history (append_user_and_truncate user_input self) = [].
Proof.
  intros user_input self Hm Hlen.
  rewrite history_after_user_turn_negative by assumption.
  apply skipn_all2. rewrite length_app. cbn [length]. lia.
Qed.

(** X5: with a negative [max_exchanges], a session that starts with at
    most one stored turn never stores more than one, and every request
    consists of the system message alone: the user's text never reaches
    the endpoint. *)
Theorem negative_window_requests_are_system_only :
  forall (ops : list operation) (self : ChatBot),
    (max_exchanges self < 0)%Z ->
    length (history self) <= 1 ->
    length (history (session ops self)) <= 1
    /\ Forall (fun request =>
                 exists system_message,
                   request = [system_message]
                   /\ role system_message = utf8 "system")
              (requests_of ops self).
Proof.
  induction ops as [| op ops IH]; intros self Hm Hlen.
  - split; [exact Hlen | constructor].
  - rewrite session_cons. cbn [requests_of].
    assert (Hstep : length (history (apply_operation op self)) <= 1).
    { destruct op as [name raw | create user_input |]; cbn [apply_operation].
      - exact Hlen.
      - destruct (get_response_cases create user_input self)
          as [(answer & _ & ->) | [(error_msg & _ & ->) | (_ & ->)]];
          rewrite (negative_window_sends_nothing user_input self Hm Hlen);
          simpl; lia.
      - simpl. lia. }
    destruct (IH (apply_operation op self)) as [IHlen IHreq].
    + rewrite max_exchanges_apply_operation. exact Hm.
    + exact Hstep.
    + split; [exact IHlen |].
      apply Forall_app. split; [| exact IHreq].
      destruct op as [name raw | create user_input |]; constructor;
        [| constructor].
      unfold messages_to_send.
      rewrite (negative_window_sends_nothing user_input self Hm Hlen).
      eexists. split; [reflexivity |]. apply role_create_system_prompt.
Qed.

Lemma negative_window_requests_are_system_only_witness :
  (max_exchanges bot_window_neg < 0)%Z
  /\ length (history bot_window_neg) <= 1
  /\ length (history (session (calls_as_operations two_exchanges)
                              bot_window_neg)) <= 1.
Proof.
  split; [vm_compute; reflexivity |].
  split; [vm_compute; lia |].
  apply (@negative_window_requests_are_system_only
           (calls_as_operations two_exchanges) bot_window_neg).
  - vm_compute; reflexivity.
  - vm_compute; lia.
Defined.

Lemma zero_window_apply_operation :
  forall (op : operation) (self : ChatBot),
    max_exchanges self = 0%Z ->
    history (apply_operation op self)
    = record_operation op self (history self).
Proof.
  intros [name raw | create user_input |] self Hzero; [reflexivity | |
                                                        reflexivity].
  cbn [apply_operation record_operation].
  destruct (get_response_cases create user_input self)
    as [(answer & -> & ->) | [(error_msg & -> & ->) | (-> & ->)]];
    rewrite history_after_user_turn_zero by assumption.
  - rewrite <- app_assoc. reflexivity.
  - apply removelast_last.
  - reflexivity.
Qed.

(** X6: with [max_exchanges = 0] the history is never truncated: through
    any session it is the whole transcript since the last
    [clear_history] (the turns of the calls that returned and the user
    turns of the calls that were interrupted). A call that returns makes
    it two turns longer, a call that is interrupted one turn longer, and
    a call that raises [ConnectionError] leaves it as it was. *)
Theorem zero_window_history_is_transcript :
  forall (ops : list operation) (self : ChatBot),
    max_exchanges self = 0%Z ->
    history (session ops self) = transcript_of ops self (history self)
    /\ forall (create : Client) (user_input : str),
        let after := get_response create user_input (session ops self) in
        (forall answer : str,
            snd after = Returned answer ->
            history (fst after)
            = history (session ops self)
              ++ [user_message user_input; assistant_message answer])
        /\ (snd after = KeyboardInterrupt ->
            history (fst after)
            = history (session ops self) ++ [user_message user_input])
        /\ (forall error_msg : str,
               snd after = ConnectionError error_msg ->
               history (fst after) = history (session ops self)).
Proof.
  assert (Hgen : forall ops self,
             max_exchanges self = 0%Z ->
             max_exchanges (session ops self) = 0%Z
             /\ history (session ops self)
                = transcript_of ops self (history self)).
  { induction ops as [| op ops IH]; intros self Hzero.
    - split; [exact Hzero | reflexivity].
    - rewrite session_cons. cbn [transcript_of].
      rewrite <- (zero_window_apply_operation op self Hzero).
      apply IH. rewrite max_exchanges_apply_operation. exact Hzero. }
  intros ops self Hzero. destruct (Hgen ops self Hzero) as [Hz Hh].
  split; [exact Hh |].
  intros create user_input after.
  pose proof (zero_window_apply_operation
                (Get_response create user_input) (session ops self) Hz)
    as Hstep.
  cbn [apply_operation record_operation] in Hstep. fold after in Hstep.
  split; [| split].
  - intros answer Hret. rewrite Hret in Hstep. exact Hstep.
  - intros Hint. rewrite Hint in Hstep. exact Hstep.
  - intros error_msg Herr. rewrite Herr in Hstep. exact Hstep.
Qed.

Lemma zero_window_history_is_transcript_witness :
  let ops := calls_as_operations two_exchanges
             ++ [Get_response interrupting (utf8 "three");
                 Get_response unreachable (utf8 "four")] in
  max_exchanges bot_window_0 = 0%Z
  /\ history (session ops bot_window_0)
     = [u1; a1; u2; a2; user_message (utf8 "three")]
  /\ history (fst (get_response (answering (utf8 "fifth")) (utf8 "five")
                                (session ops bot_window_0)))
     = [u1; a1; u2; a2; user_message (utf8 "three");
        user_message (utf8 "five"); assistant_message (utf8 "fifth")].
Proof.
  intros ops.
  destruct (@zero_window_history_is_transcript ops bot_window_0)
    as [Hhistory Hcall]; [reflexivity |].
  destruct (Hcall (answering (utf8 "fifth")) (utf8 "five"))
    as (Hret & _ & _).
  split; [reflexivity |].
  split; [rewrite Hhistory; vm_compute; reflexivity |].
  etransitivity; [apply Hret; reflexivity |].
  rewrite Hhistory. vm_compute. reflexivity.
Defined.

(* ================================================================== *)
(** ** The context items of a profile *)
(* ================================================================== *)

Lemma in_strip :
  forall (c : N) (piece : str), In c (strip piece) -> In c piece.
Proof.
  intros c piece Hin.
  destruct (strip_spec piece) as (before & after & Heq & _).
  rewrite Heq. apply in_or_app. right. apply in_or_app. left. exact Hin.
Qed.

Lemma context_items_clean_list :
  forall context_info_str : str,
    Forall (fun item =>
              item <> []
              /\ ~ In comma item
              /\ starts_with_space item = false
              /\ ends_with_space item = false)
           (parse_context_items context_info_str).
Proof.
  intros context_info_str.
  unfold parse_context_items. apply Forall_forall. intros item Hin.
  apply in_map_iff in Hin. destruct Hin as (piece & <- & Hpiece).
  apply filter_In in Hpiece. destruct Hpiece as [Hpiece Hkept].
  pose proof (split_pieces_free comma context_info_str) as Hfree.
  rewrite Forall_forall in Hfree.
  destruct (strip_spec piece) as (before & after & _ & _ & _ & Hs & He).
  repeat split; try assumption.
  - intros Hnil. rewrite Hnil in Hkept. discriminate.
  - intros Hc. exact (Hfree piece Hpiece (in_strip _ _ Hc)).
Qed.

(** X7: every context item that [set_user_profile] stores is non-empty,
    contains no comma, and neither starts nor ends with white space,
    whatever the context string is. *)
Theorem context_items_are_clean :
  forall (name context_info_str : str) (self : ChatBot),
    exists items,
      user_profile (set_user_profile name context_info_str self)
      = profile_is name items
      /\ Forall (fun item =>
                   item <> []
                   /\ ~ In comma item
                   /\ starts_with_space item = false
                   /\ ends_with_space item = false) items.
Proof.
  intros name context_info_str self.
  exists (parse_context_items context_info_str).
  split; [reflexivity |].
  apply context_items_clean_list.
Qed.

(* ------------------------------------------------------------------ *)

Lemma split_free :
  forall (sep : N) (x : str), ~ In sep x -> split sep x = [x].
Proof.
  intros sep. induction x as [| c x IH]; intros Hfree; [reflexivity |].
  simpl. destruct (N.eqb_spec c sep) as [-> | Hne].
  - exfalso. apply Hfree. left. reflexivity.
  - rewrite IH; [reflexivity |]. intros Hin. apply Hfree. right. exact Hin.
Qed.

Lemma split_app_sep :
  forall (sep : N) (x rest : str),
    ~ In sep x -> split sep (x ++ sep :: rest) = x :: split sep rest.
Proof.
  intros sep. induction x as [| c x IH]; intros rest Hfree.
  - simpl. rewrite N.eqb_refl. reflexivity.
  - simpl. destruct (N.eqb_spec c sep) as [-> | Hne].
    + exfalso. apply Hfree. left. reflexivity.
    + rewrite IH; [reflexivity |].
      intros Hin. apply Hfree. right. exact Hin.
Qed.

(** The pieces of a list of comma-free items joined by comma and space:
    the first item, then each further item after one space. *)
Lemma split_join_comma_space :
  forall (item : str) (items : list str),
    Forall (fun item => ~ In comma item) (item :: items) ->
    split comma (join COMMA_SPACE (item :: items))
    = item :: map (cons 0x20%N) items.
Proof.
  intros item items. revert item.
  induction items as [| item' items IH]; intros item Hfree.
  - apply split_free. inversion Hfree; assumption.
  - inversion Hfree as [| ? ? Hitem Hrest]; subst.
    rewrite join_cons2.
    change (COMMA_SPACE ++ join COMMA_SPACE (item' :: items))
      with (comma :: 0x20%N :: join COMMA_SPACE (item' :: items)).
    rewrite split_app_sep by assumption.
    cbn [split]. change (0x20 =? comma)%N with false. cbv iota.
    rewrite (IH item' Hrest). reflexivity.
Qed.

Lemma lstrip_trimmed :
  forall s : str, starts_with_space s = false -> lstrip s = s.
Proof.
  intros [| c r] Hs; [reflexivity |].
  simpl in Hs |- *. rewrite Hs. reflexivity.
Qed.

Lemma strip_trimmed :
  forall s : str,
    starts_with_space s = false -> ends_with_space s = false ->
    strip s = s.
Proof.
  intros s Hs He. unfold strip, rstrip.
  rewrite (lstrip_trimmed s Hs), (lstrip_trimmed (rev s) He).
  apply rev_involutive.
Qed.

Lemma parse_joined_items :
  forall items : list str,
    Forall (fun item =>
              item <> []
              /\ ~ In comma item
              /\ starts_with_space item = false
              /\ ends_with_space item = false) items ->
    parse_context_items (join COMMA_SPACE items) = items.
Proof.
  intros [| item items] Hclean; [reflexivity |].
  unfold parse_context_items.
  rewrite strip_filter_commute, split_join_comma_space
    by (eapply Forall_impl; [| exact Hclean]; cbv beta; tauto).
  inversion Hclean as [| ? ? (Hne & _ & Hs & He) Hrest]; subst.
  cbn [map filter]. rewrite (strip_trimmed item Hs He).
  destruct item as [| c item]; [congruence |]. cbn [truthy]. f_equal.
  clear - Hrest. induction Hrest as [| y ys (Hne & _ & Hs & He) _ IH];
    [reflexivity |].
  cbn [map filter].
  change (strip (0x20%N :: y)) with (strip y).
  rewrite (strip_trimmed y Hs He).
  destruct y as [| c y]; [congruence |]. cbn [truthy]. f_equal. exact IH.
Qed.

(** X8: the context items joined by comma and space, as the system prompt
    shows them, parse back to the same items; parsing the context string
    that a profile displays changes nothing. *)
Theorem context_items_round_trip :
  forall (name context_info_str : str) (self : ChatBot),
    parse_context_items
      (join COMMA_SPACE (parse_context_items context_info_str))
    = parse_context_items context_info_str
    /\ user_profile
         (set_user_profile name
            (join COMMA_SPACE (parse_context_items context_info_str)) self)
       = user_profile (set_user_profile name context_info_str self).
Proof.
  intros name context_info_str self.
  assert (Hparse : parse_context_items
                     (join COMMA_SPACE
                           (parse_context_items context_info_str))
                   = parse_context_items context_info_str).
  { apply parse_joined_items. apply context_items_clean_list. }
  split; [exact Hparse |].
  unfold set_user_profile. cbn [with_user_profile user_profile].
  rewrite Hparse. reflexivity.
Qed.

(* ------------------------------------------------------------------ *)

Lemma strip_nil_iff :
  forall s : str, strip s = [] <-> forallb isspace s = true.
Proof.
  intros s. split; [| apply strip_blank].
  intros Hnil.
  destruct (strip_spec s) as (before & after & Heq & Hb & Ha & _).
  rewrite Heq, Hnil, !forallb_app, Hb, Ha. reflexivity.
Qed.

(** The pieces are all blank exactly when the string holds nothing but
    commas and white space. *)
Lemma blank_pieces_filler :
  forall s : str,
    forallb (forallb isspace) (split comma s) = forallb is_filler s.
Proof.
  induction s as [| c r IH]; [reflexivity |].
  cbn [split forallb]. unfold is_filler at 1.
  destruct (N.eqb_spec c comma) as [-> | Hne].
  - cbn [forallb]. rewrite IH, orb_true_r. reflexivity.
  - rewrite orb_false_r, <- IH.
    destruct (split comma r) as [| piece pieces] eqn:Hsplit.
    + exfalso. exact (split_not_nil comma r Hsplit).
    + cbn [forallb]. rewrite andb_assoc. reflexivity.
Qed.

Lemma no_items_iff_blank_pieces :
  forall pieces : list str,
    filter truthy (map strip pieces) = []
    <-> forallb (forallb isspace) pieces = true.
Proof.
  induction pieces as [| piece pieces IH]; [split; reflexivity |].
  cbn [map filter forallb]. rewrite andb_true_iff, <- IH, <- strip_nil_iff.
  destruct (strip piece) as [| c s]; cbn [truthy].
  - tauto.
  - split; [discriminate | intros [Hc _]; discriminate].
Qed.

(** X9: [set_user_profile] stores no context item exactly when the context
    string holds nothing but commas and white space (the empty string
    included); the system prompt then shows the placeholder in place of
    the context. *)
Theorem no_context_iff_filler_only :
  forall (name context_info_str : str) (self : ChatBot),
    (key_context_items
       (user_profile (set_user_profile name context_info_str self))
     = Some []
     <-> forallb is_filler context_info_str = true)
    /\ (forallb is_filler context_info_str = true ->
        content (_create_system_prompt
                   (set_user_profile name context_info_str self))
        = PROMPT_HEAD ++ name ++ PROMPT_MIDDLE
          ++ CONTEXT_PLACEHOLDER ++ PROMPT_TAIL).
Proof.
  intros name context_info_str self.
  assert (Hiff : parse_context_items context_info_str = []
                 <-> forallb is_filler context_info_str = true).
  { unfold parse_context_items.
    rewrite strip_filter_commute, no_items_iff_blank_pieces.
    rewrite blank_pieces_filler. tauto. }
  split.
  - unfold set_user_profile. cbn [with_user_profile user_profile
                                    key_context_items].
    rewrite <- Hiff. split; [intros Hsome; congruence | intros ->; auto].
  - intros Hfiller. apply Hiff in Hfiller.
    unfold _create_system_prompt, set_user_profile.
    cbn [with_user_profile user_profile key_name key_context_items
           dict_truthy negb get content system_message_of].
    rewrite Hfiller. reflexivity.
Qed.

Lemma no_context_iff_filler_only_witness :
  forallb is_filler (utf8 " , ,, ") = true
  /\ content (_create_system_prompt
                (set_user_profile (utf8 "Ana") (utf8 " , ,, ") bot_default))
     = PROMPT_HEAD ++ utf8 "Ana" ++ PROMPT_MIDDLE
       ++ CONTEXT_PLACEHOLDER ++ PROMPT_TAIL.
Proof.
  split; [reflexivity |].
  apply (no_context_iff_filler_only (utf8 "Ana") (utf8 " , ,, ") bot_default).
  reflexivity.
Defined.

(* ================================================================== *)
(** ** The read-eval loop *)
(* ================================================================== *)

Lemma mem_quit_iff :
  forall user_text : str,
    mem (lower user_text) [utf8 "q"; utf8 "quit"] = true
    <-> lower user_text = utf8 "q" \/ lower user_text = utf8 "quit".
Proof.
  intros user_text. unfold mem. cbn [existsb].
  rewrite orb_false_r, orb_true_iff, !eqb_eq. tauto.
Qed.





(* ------------------------------------------------------------------ *)

Lemma length_strip_le : forall s : str, length (strip s) <= length s.
Proof.
  intros s. destruct (strip_spec s) as (before & after & Heq & _).
  rewrite Heq at 2. rewrite !length_app. lia.
Qed.

Lemma history_command_is_not_quit :
  forall user_text : str,
    strip user_text = utf8 "/history" ->
    mem (lower user_text) [utf8 "q"; utf8 "quit"] = false.
Proof.
  intros user_text Hcmd.
  pose proof (length_strip_le user_text) as Hlen.
  rewrite Hcmd in Hlen. change (length (utf8 "/history")) with 8 in Hlen.
  destruct (mem (lower user_text) [utf8 "q"; utf8 "quit"]) eqn:Hmem;
    [| reflexivity].
  apply mem_quit_iff in Hmem.
  assert (Hl : length (lower user_text) = length user_text)
    by apply length_map.
  destruct Hmem as [Hq | Hq]; rewrite Hq in Hl; simpl in Hl; lia.
Qed.

(** X11: a line that is [/history] up to surrounding white space only
    displays the history: the iteration leaves the bot as it is, sends no
    request, and however often the command is repeated the loop goes on
    from the same bot. *)
Theorem history_command_is_read_only :
  forall (create : Client) (user_text : str) (bot : ChatBot),
    strip user_text = utf8 "/history" ->
    loop_iteration create user_text bot
    = Continue bot [History_listing (history bot)]
    /\ forwarded_lines [(create, user_text)] bot = []
    /\ forall (n : nat) (rest : list (Client * str)),
        fst (run_chat_loop (repeat (create, user_text) n ++ rest) bot)
        = fst (run_chat_loop rest bot).
Proof.
  intros create user_text bot Hcmd.
  pose proof (history_command_is_not_quit user_text Hcmd) as Hquit.
  assert (Hiter : loop_iteration create user_text bot
                  = Continue bot [History_listing (history bot)]).
  { unfold loop_iteration. rewrite Hquit, Hcmd, eqb_refl. reflexivity. }
  split; [exact Hiter |]. split.
  - cbn [forwarded_lines]. rewrite Hquit, Hcmd, eqb_refl. reflexivity.
  - induction n as [| n IH]; intros rest; [reflexivity |].
    cbn [repeat app run_chat_loop]. rewrite Hiter.
    specialize (IH rest).
    destruct (run_chat_loop (repeat (create, user_text) n ++ rest) bot)
      as [bot' out]. exact IH.
Qed.

Lemma history_command_is_read_only_witness :
  strip (utf8 "  /history ") = utf8 "/history"
  /\ loop_iteration unreachable (utf8 "  /history ") bot_after_two
     = Continue bot_after_two [History_listing [a1; u2; a2]].
Proof.
  split; [reflexivity |].
  apply (history_command_is_read_only unreachable (utf8 "  /history ")
                                      bot_after_two).
  reflexivity.
Defined.

(* ------------------------------------------------------------------ *)

(** X12: a line that is neither a command nor blank and whose request
    fails does not end the loop: the iteration prints one error report,
    which contains the cause given by the endpoint and the name of the
    model, prints no answer, and leaves model, window size and profile as
    they were. *)
Theorem failed_request_is_reported :
  forall (create : Client) (user_text str_e : str) (bot : ChatBot),
    mem (lower user_text) [utf8 "q"; utf8 "quit"] = false ->
    strip user_text <> utf8 "/history" ->
    strip user_text <> [] ->
    create (model bot) (messages_to_send user_text bot) = Failed str_e ->
    exists bot' report,
      loop_iteration create user_text bot
      = Continue bot' [Error_report report]
      /\ occurs_in str_e report
      /\ occurs_in (model bot) report
      /\ model bot' = model bot
      /\ max_exchanges bot' = max_exchanges bot
      /\ user_profile bot' = user_profile bot.
Proof.
  intros create user_text str_e bot Hquit Hcmd Hblank Hfail.
  unfold loop_iteration. rewrite Hquit.
  destruct (eqb (strip user_text) (utf8 "/history")) eqn:Heq;
    [apply eqb_eq in Heq; contradiction |].
  destruct (strip user_text) as [| c s] eqn:Hstrip; [congruence |].
  cbn [truthy negb].
  rewrite (get_response_failed _ _ _ Hfail).
  eexists. eexists. split; [reflexivity |].
  split; [| split; [| repeat split]].
  - exists (utf8 "Ошибка при обращении к модели: ").
    eexists. unfold error_msg_of. reflexivity.
  - unfold error_msg_of.
    exists (utf8 "Ошибка при обращении к модели: " ++ str_e ++ [0x0A%N]
            ++ utf8 "Убедитесь, что Ollama запущен (docker start ollama) "
            ++ utf8 "и модель "),
      (utf8 " загружена.").
    rewrite <- !app_assoc. reflexivity.
Qed.

Lemma failed_request_is_reported_witness :
  mem (lower (utf8 "hello")) [utf8 "q"; utf8 "quit"] = false
  /\ strip (utf8 "hello") <> utf8 "/history"
  /\ strip (utf8 "hello") <> []
  /\ exists bot' report,
      loop_iteration unreachable (utf8 "hello") bot_default
      = Continue bot' [Error_report report]
      /\ occurs_in (utf8 "Connection error.") report
      /\ occurs_in (model bot_default) report
      /\ model bot' = model bot_default
      /\ max_exchanges bot' = max_exchanges bot_default
      /\ user_profile bot' = user_profile bot_default.
Proof.
  split; [reflexivity |].
  split; [vm_compute; discriminate |].
  split; [vm_compute; discriminate |].
  apply (@failed_request_is_reported unreachable (utf8 "hello")
           (utf8 "Connection error.") bot_default).
  - reflexivity.
  - vm_compute; discriminate.
  - vm_compute; discriminate.
  - reflexivity.
Defined.

(* ------------------------------------------------------------------ *)

Lemma user_profile_session_requests :
  forall (ops : list operation) (self : ChatBot),
    Forall (fun op => is_set_user_profile op = false) ops ->
    user_profile (session ops self) = user_profile self
    /\ Forall (fun request =>
                 hd_error request = Some (_create_system_prompt self))
              (requests_of ops self).
Proof.
  induction ops as [| op ops IH]; intros self Hops.
  - split; [reflexivity | constructor].
  - inversion Hops as [| ? ? Hop Hrest]; subst.
    rewrite session_cons. cbn [requests_of].
    pose proof (user_profile_apply_operation op self Hop) as Hp.
    destruct (IH (apply_operation op self) Hrest) as [IHp IHreq].
    split; [congruence |].
    apply Forall_app. split.
    + destruct op as [name raw | create user_input |]; constructor;
        [reflexivity | constructor].
    + eapply Forall_impl; [| exact IHreq].
      intros request Hhd. rewrite Hhd. f_equal.
      unfold _create_system_prompt. rewrite Hp. reflexivity.
Qed.

Lemma model_session :
  forall (ops : list operation) (self : ChatBot),
    model (session ops self) = model self
    /\ max_exchanges (session ops self) = max_exchanges self.
Proof.
  induction ops as [| op ops IH]; intros self; [split; reflexivity |].
  rewrite session_cons.
  destruct (IH (apply_operation op self)) as [-> ->].
  split; [| apply max_exchanges_apply_operation].
  destruct op as [name raw | create user_input |];
    [reflexivity | apply model_get_response | reflexivity].
Qed.

Lemma forwarded_lines_are_requests :
  forall (lines : list (Client * str)) (bot : ChatBot),
    Forall (fun op =>
              is_set_user_profile op = false
              /\ exists create user_text,
                  op = Get_response create user_text
                  /\ In (create, user_text) lines
                  /\ strip user_text <> [])
           (forwarded_lines lines bot).
Proof.
  induction lines as [| [create user_text] rest IH]; intros bot;
    [constructor |].
  assert (Hrest : forall bot', Forall (fun op =>
              is_set_user_profile op = false
              /\ exists create' user_text',
                  op = Get_response create' user_text'
                  /\ In (create', user_text') ((create, user_text) :: rest)
                  /\ strip user_text' <> [])
           (forwarded_lines rest bot')).
  { intros bot'. eapply Forall_impl; [| exact (IH bot')].
    intros op (Hop & c & t & Heq & Hin & Hne).
    split; [exact Hop |]. exists c, t. repeat split; auto. right; auto. }
  cbn [forwarded_lines].
  destruct (mem (lower user_text) [utf8 "q"; utf8 "quit"]); [constructor |].
  destruct (eqb (strip user_text) (utf8 "/history")); [apply Hrest |].
  destruct (strip user_text) as [| c s] eqn:Hstrip; cbn [truthy negb];
    [apply Hrest |].
  constructor.
  - split; [reflexivity |]. exists create, user_text.
    repeat split; [left; reflexivity | rewrite Hstrip; discriminate].
  - destruct (get_response create user_text bot) as [bot1 [answer | e |]];
      [apply Hrest | apply Hrest | constructor].
Qed.

Lemma run_chat_loop_session :
  forall (lines : list (Client * str)) (bot : ChatBot),
    fst (run_chat_loop lines bot)
    = session (forwarded_lines lines bot) bot.
Proof.
  induction lines as [| [create user_text] rest IH]; intros bot;
    [reflexivity |].
  cbn [run_chat_loop forwarded_lines]. unfold loop_iteration.
  destruct (mem (lower user_text) [utf8 "q"; utf8 "quit"]); [reflexivity |].
  destruct (eqb (strip user_text) (utf8 "/history")).
  { specialize (IH bot).
    destruct (run_chat_loop rest bot) as [bot' out]. exact IH. }
  destruct (negb (truthy (strip user_text))).
  { specialize (IH bot).
    destruct (run_chat_loop rest bot) as [bot' out]. exact IH. }
  rewrite session_cons. cbn [apply_operation].
  destruct (get_response create user_text bot) as [bot1 [answer | e |]];
    cbn [fst]; [| | reflexivity];
    specialize (IH bot1);
    destruct (run_chat_loop rest bot1) as [bot' out]; exact IH.
Qed.

(** X13: what [run_chat_loop] does to the bot is a session of calls of
    [get_response], one for each line that is neither [/history] nor
    blank, in order and with the line as it was typed (not trimmed), up
    to the first quit command or, if a request is interrupted, up to and
    including that request. The loop never changes the profile, the model
    name or the window size. *)
Theorem run_chat_loop_is_a_session :
  forall (lines : list (Client * str)) (bot : ChatBot),
    fst (run_chat_loop lines bot)
    = session (forwarded_lines lines bot) bot
    /\ Forall (fun op =>
                 is_set_user_profile op = false
                 /\ exists create user_text,
                     op = Get_response create user_text
                     /\ In (create, user_text) lines
                     /\ strip user_text <> [])
              (forwarded_lines lines bot)
    /\ user_profile (fst (run_chat_loop lines bot)) = user_profile bot
    /\ model (fst (run_chat_loop lines bot)) = model bot
    /\ max_exchanges (fst (run_chat_loop lines bot)) = max_exchanges bot.
Proof.
  intros lines bot.
  pose proof (forwarded_lines_are_requests lines bot) as Hfw.
  rewrite run_chat_loop_session.
  split; [reflexivity |]. split; [exact Hfw |].
  destruct (model_session (forwarded_lines lines bot) bot)
    as [Hmodel Hmax].
  destruct (@user_profile_session_requests (forwarded_lines lines bot) bot)
    as [Hp _].
  { eapply Forall_impl; [| exact Hfw]. cbv beta. tauto. }
  repeat split; assumption.
Qed.

(* ------------------------------------------------------------------ *)

(** X15: in a run of [main], whatever the user types and however the
    endpoint behaves, the profile is the one entered at the start, every
    request begins with the personalised system message built from it
    (the generic prompt is never sent), no request has more than fifteen
    messages, and the history never has more than fifteen turns. *)
Theorem main_requests_are_personalized :
  forall (name context_str : str) (lines : list (Client * str)),
    let bot0 := setup_profile name context_str
                  (__init__ default_model DEFAULT_MAX_EXCHANGES) in
    let personalized :=
      system_message_of
        (PROMPT_HEAD ++ name ++ PROMPT_MIDDLE
         ++ context_str_of (parse_context_items context_str)
         ++ PROMPT_TAIL) in
    fst (main name context_str lines)
    = session (forwarded_lines lines bot0) bot0
    /\ user_profile (fst (main name context_str lines))
       = profile_is name (parse_context_items context_str)
    /\ length (history (fst (main name context_str lines))) <= 15
    /\ Forall (fun request =>
                 hd_error request = Some personalized
                 /\ content personalized <> GENERIC_PROMPT
                 /\ length request <= 15)
              (requests_of (forwarded_lines lines bot0) bot0).
Proof.
  intros name context_str lines bot0 personalized.
  unfold main. fold bot0.
  rewrite run_chat_loop_session.
  pose proof (forwarded_lines_are_requests lines bot0) as Hfw.
  destruct (@user_profile_session_requests
              (forwarded_lines lines bot0) bot0) as [Hp Hhd].
  { eapply Forall_impl; [| exact Hfw]. cbv beta. tauto. }
  destruct (@window_bound_session (forwarded_lines lines bot0) bot0)
    as [Hlen Hreq].
  { vm_compute. discriminate. }
  { vm_compute. discriminate. }
  change (max_exchanges bot0) with 7%Z in Hlen, Hreq.
  split; [reflexivity |]. split; [rewrite Hp; reflexivity |].
  split; [lia |].
  rewrite Forall_forall in Hhd, Hreq |- *.
  intros request Hin. split; [| split].
  - rewrite (Hhd request Hin). reflexivity.
  - apply personalized_is_not_generic.
  - specialize (Hreq request Hin). cbv beta in Hreq. lia.
Qed.

(* ================================================================== *)
(** ** The display of the history *)
(* ================================================================== *)

Lemma history_line_of_turn :
  forall turn : message,
    role turn = utf8 "user" \/ role turn = utf8 "assistant" ->
    exists line,
      history_line turn = [line] /\ occurs_in (content turn) line.
Proof.
  intros turn [Hrole | Hrole]; unfold history_line; rewrite Hrole.
  - change (eqb (utf8 "user") (utf8 "user")) with true. cbv iota.
    eexists. split; [reflexivity |].
    exists (COLORS_USER ++ utf8 "Вы:" ++ COLORS_END ++ utf8 " "), NEWLINE.
    rewrite <- !app_assoc. reflexivity.
  - change (eqb (utf8 "assistant") (utf8 "user")) with false.
    change (eqb (utf8 "assistant") (utf8 "assistant")) with true. cbv iota.
    eexists. split; [reflexivity |].
    exists (COLORS_BOT ++ utf8 "Бот:" ++ COLORS_END ++ utf8 " "), NEWLINE.
    rewrite <- !app_assoc. reflexivity.
Qed.

Lemma history_lines_of_turns :
  forall turns : list message,
    Forall (fun turn => role turn = utf8 "user"
                        \/ role turn = utf8 "assistant") turns ->
    exists lines,
      flat_map history_line turns = lines
      /\ Forall2 (fun turn line =>
                    history_line turn = [line]
                    /\ occurs_in (content turn) line) turns lines.
Proof.
  induction 1 as [| turn turns Hturn _ (lines & Hlines & Hall)].
  - exists []. split; [reflexivity | constructor].
  - destruct (history_line_of_turn turn Hturn) as (line & Hline & Hocc).
    exists (line :: lines). cbn [flat_map]. rewrite Hline, Hlines.
    split; [reflexivity |]. constructor; [split |]; assumption.
Qed.

(** X14: for the bot of any session from a fresh [ChatBot],
    [show_history] prints the notice that the history is empty exactly
    when it is; otherwise it prints three header lines, then one line for
    each stored turn, in order, containing the content of the turn, and
    one closing line. No stored turn is left out of the display. *)
Theorem show_history_lists_every_turn :
  forall (ops : list operation) (model : str) (max_exchanges : Z),
    let bot := session ops (__init__ model max_exchanges) in
    (history bot = []
     /\ show_history_prints bot
        = [COLORS_INFO ++ utf8 "История диалога пуста." ++ COLORS_END
           ++ NEWLINE])
    \/ (history bot <> []
        /\ exists lines,
            show_history_prints bot
            = [NEWLINE ++ COLORS_INFO ++ separator;
               utf8 "История диалога:";
               separator ++ COLORS_END ++ NEWLINE]
              ++ lines
              ++ [COLORS_INFO ++ separator ++ COLORS_END ++ NEWLINE]
            /\ length lines = length (history bot)
            /\ Forall2 (fun turn line =>
                          history_line turn = [line]
                          /\ occurs_in (content turn) line)
                       (history bot) lines).
Proof.
  intros ops model0 m bot.
  assert (Hroles : Forall (fun turn => role turn = utf8 "user"
                                       \/ role turn = utf8 "assistant")
                          (history bot)).
  { apply roles_session. constructor. }
  unfold show_history_prints.
  destruct (history bot) as [| turn turns] eqn:Hh.
  - left. split; reflexivity.
  - right. split; [discriminate |]. cbn [truthy negb].
    destruct (history_lines_of_turns Hroles) as (lines & Hlines & Hall).
    exists lines. rewrite Hlines.
    split; [reflexivity |]. split; [| exact Hall].
    symmetry. exact (Forall2_length Hall).
Qed.

(* ================================================================== *)
(** ** Further compositions *)
(* ================================================================== *)

(** X16: with [max_exchanges >= 1], after [n] successful exchanges from an
    empty history the history holds [min (2 * n) (2 * max_exchanges + 1)]
    turns: whole exchanges until the window is full, and from then on
    [max_exchanges] user turns with their answers and one older answer in
    front of them. *)
Theorem history_length_after_exchanges :
  forall (calls : list (Client * str)) (start self : ChatBot),
    (1 <= max_exchanges start)%Z ->
    history start = [] ->
    successful_exchanges calls start = Some self ->
    Z.of_nat (length (history self))
    = Z.min (2 * Z.of_nat (length calls)) (2 * max_exchanges start + 1)
    /\ alternates_back false (rev (history self)) = true.
Proof.
  intros calls start self Hm Hempty Hrun.
  assert (Hzero : Z.of_nat (length (history start))
                  = Z.min (2 * 0) (2 * max_exchanges start + 1))
    by (rewrite Hempty; simpl length; lia).
  destruct (@length_after_successful_exchanges
              calls start self 0%Z Hm Hzero Hrun) as [_ Hlen].
  split; [rewrite Hlen; f_equal; lia |].
  destruct (successful_exchanges_session _ _ Hrun) as [-> Hun].
  apply alternates_session; [exact Hun |].
  rewrite Hempty. reflexivity.
Qed.

Lemma history_length_after_exchanges_witness :
  (1 <= max_exchanges bot_window_1)%Z
  /\ history bot_window_1 = []
  /\ successful_exchanges two_exchanges bot_window_1 = Some bot_after_two
  /\ Z.of_nat (length (history bot_after_two)) = 3%Z.
Proof.
  split; [vm_compute; discriminate |].
  split; [reflexivity |].
  split; [reflexivity |].
  apply (@history_length_after_exchanges
           two_exchanges bot_window_1 bot_after_two).
  - vm_compute; discriminate.
  - reflexivity.
  - reflexivity.
Defined.

Lemma session_app :
  forall (ops1 ops2 : list operation) (self : ChatBot),
    session (ops1 ++ ops2) self = session ops2 (session ops1 self).
Proof. intros ops1 ops2 self. apply fold_left_app. Qed.

(** X17: the profile of a bot is the one of the last call of
    [set_user_profile]: the call replaces the whole profile, nothing of
    an earlier profile is merged in, and no call of [get_response] or
    [clear_history] after it changes it. *)
Theorem last_profile_wins :
  forall (before after : list operation) (name context_info_str : str)
         (self : ChatBot),
    Forall (fun op => is_set_user_profile op = false) after ->
    user_profile
      (session (before ++ Set_user_profile name context_info_str :: after)
               self)
    = profile_is name (parse_context_items context_info_str).
Proof.
  intros before after name context_info_str self Hafter.
  rewrite session_app, session_cons.
  destruct (@user_profile_session_requests after
              (apply_operation (Set_user_profile name context_info_str)
                               (session before self)) Hafter) as [-> _].
  reflexivity.
Qed.

Lemma last_profile_wins_witness :
  Forall (fun op => is_set_user_profile op = false)
         [Get_response unreachable (utf8 "hello"); Clear_history]
  /\ user_profile
       (session ([Set_user_profile (utf8 "Bob") (utf8 "go, tea")]
                 ++ Set_user_profile (utf8 "Ana") (utf8 "chess")
                 :: [Get_response unreachable (utf8 "hello"); Clear_history])
                bot_default)
     = profile_is (utf8 "Ana") (parse_context_items (utf8 "chess")).
Proof.
  split; [repeat constructor |].
  apply (@last_profile_wins
           [Set_user_profile (utf8 "Bob") (utf8 "go, tea")]
           [Get_response unreachable (utf8 "hello"); Clear_history]).
  repeat constructor.
Defined.

(** X18: after [clear_history], with [max_exchanges >= 0], the next
    request holds the system message and the new user turn and nothing
    else: no turn from before the call of [clear_history] reaches the
    endpoint again. *)
Theorem request_after_clear_history :
  forall (user_input : str) (self : ChatBot),
    (0 <= max_exchanges self)%Z ->
    messages_to_send user_input (clear_history self)
    = [_create_system_prompt self; user_message user_input].
Proof.
  intros user_input self Hm. unfold messages_to_send.
  assert (Hsent : history (append_user_and_truncate user_input
                                                    (clear_history self))
                  = [user_message user_input]).
  { destruct (Z.eq_dec (max_exchanges self) 0) as [Hzero | Hpos].
    - rewrite history_after_user_turn_zero by exact Hzero. reflexivity.
    - rewrite history_after_user_turn
        by (cbn [clear_history with_history max_exchanges]; lia).
      reflexivity. }
  rewrite Hsent. reflexivity.
Qed.

Lemma request_after_clear_history_witness :
  (0 <= max_exchanges bot_after_two)%Z
  /\ messages_to_send (utf8 "three") (clear_history bot_after_two)
     = [_create_system_prompt bot_after_two; user_message (utf8 "three")].
Proof.
  split; [vm_compute; discriminate |].
  apply (request_after_clear_history (utf8 "three") bot_after_two).
  vm_compute; discriminate.
Defined.
